(** * Craby: the JS binding layer, the Android packages, the CLI entry point
      and the Metro resolver cache

    A shallow embedding of the TypeScript and Kotlin sources of the
    repository, with the properties the specification states about them.

    - [JniBootstrap]    : [craby-modules] registry ([prepareJNI],
                          [NativeModuleRegistry.get], [.getEnforcing]).
    - [AndroidPackage]  : the two [BaseReactPackage] subclasses (the scaffold
                          template and [CrabyTestPackage]).
    - [Cli]             : [isCodegenCommand], [run], [withErrorHandler].
    - [MetroResolver]   : [createResolver] and its module-level [resolvers] map.
    - [BuildTargets], [Naming] : tables and converters that live in the Rust
                          crates; only their documentation is available. *)

From Stdlib Require Import String Ascii List Bool Arith Lia.
From stdpp Require Import base gmap strings list fin_maps.
Import ListNotations.

Local Open Scope string_scope.
Local Open Scope list_scope.

(** ** The JS side of the JNI bootstrap (craby-modules) *)

Module JniBootstrap.

(** The template literal [`__craby${moduleName}_JNI_prepare__`]. *)
Definition prepare_module_name (moduleName : string) : string :=
  "__craby" +:+ moduleName +:+ "_JNI_prepare__".

(** The three places of the file that call into [TurboModuleRegistry]:
    line 28 (inside [prepareJNI]), line 39 ([get]) and line 43
    ([getEnforcing]). *)
Inductive CallSite := PrepareJNI_get | Registry_get | Registry_getEnforcing.

#[global] Instance CallSite_eq_dec : EqDecision CallSite.
Proof. solve_decision. Defined.

(** One observed call of [TurboModuleRegistry]: who issued it, the name
    that was asked for, and whether a module object came back. *)
Record TMEvent := mkEvent {
  ev_site : CallSite;
  ev_name : string;
  ev_found : bool
}.

#[global] Instance TMEvent_eq_dec : EqDecision TMEvent.
Proof. solve_decision. Defined.

(** Outcome of a JS call: a value or a thrown exception. *)
Inductive Completion (E A : Type) :=
| Return (a : A)
| Throw (e : E).
Arguments Return {E A} a.
Arguments Throw {E A} e.

Section Registry.
(** The host runtime is external: its state, the module objects it hands
    out and the error [getEnforcing] raises are left abstract. *)
Context {Host Mod Exn : Type}.

(** [Platform.OS]. *)
Variable OS : string.
(** [TurboModuleRegistry.get]: [T | null], possibly changing the host. *)
Variable turbo_get : string → Host → option Mod * Host.
(** [TurboModuleRegistry.getEnforcing]: [T] or an exception. *)
Variable turbo_getEnforcing : string → Host → Completion Exn Mod * Host.

Record World := mkWorld {
  host : Host;
  trace : list TMEvent   (* oldest call first *)
}.

Definition JS (A : Type) : Type := World → Completion Exn A * World.

Definition ret {A} (a : A) : JS A := fun w => (Return a, w).

Definition bind {A B} (m : JS A) (k : A → JS B) : JS B :=
  fun w =>
    match m w with
    | (Return a, w') => k a w'
    | (Throw e, w') => (Throw e, w')
    end.

Notation "'run*' m 'in' k" := (bind m (fun _ => k))
  (at level 10, m at level 100, k at level 200).

Definition TurboModuleRegistry_get (site : CallSite) (name : string)
  : JS (option Mod) :=
  fun w =>
    let '(r, h) := turbo_get name (host w) in
    (Return r,
     mkWorld h (trace w ++ [mkEvent site name (bool_decide (is_Some r))])).

Definition completed {A} (c : Completion Exn A) : bool :=
  match c with Return _ => true | Throw _ => false end.

Definition TurboModuleRegistry_getEnforcing (site : CallSite) (name : string)
  : JS Mod :=
  fun w =>
    let '(r, h) := turbo_getEnforcing name (host w) in
    (r, mkWorld h (trace w ++ [mkEvent site name (completed r)])).

(** [function prepareJNI(moduleName: string)] *)
Definition prepareJNI (moduleName : string) : JS unit :=
  if bool_decide (OS ≠ "android") then ret tt
  else
    (run* TurboModuleRegistry_get PrepareJNI_get (prepare_module_name moduleName)
     in ret tt).

(** [NativeModuleRegistry.get] *)
Definition NativeModuleRegistry_get (moduleName : string) : JS (option Mod) :=
  run* prepareJNI moduleName in
  TurboModuleRegistry_get Registry_get moduleName.

(** [NativeModuleRegistry.getEnforcing] *)
Definition NativeModuleRegistry_getEnforcing (moduleName : string) : JS Mod :=
  run* prepareJNI moduleName in
  TurboModuleRegistry_getEnforcing Registry_getEnforcing moduleName.

(** A caller's request: which of the two methods, for which module. *)
Inductive Call :=
| CallGet (moduleName : string)
| CallGetEnforcing (moduleName : string).

Definition call_name (c : Call) : string :=
  match c with CallGet n | CallGetEnforcing n => n end.

Definition exec (c : Call) (w : World) : World :=
  match c with
  | CallGet n => snd (NativeModuleRegistry_get n w)
  | CallGetEnforcing n => snd (NativeModuleRegistry_getEnforcing n w)
  end.

(** A process lifetime: requests served one after the other; an
    exception of [getEnforcing] ends that request only. *)
Fixpoint run_calls (calls : list Call) (w : World) : World :=
  match calls with
  | [] => w
  | c :: cs => run_calls cs (exec c w)
  end.

(** Process start: nothing has been looked up yet. *)
Definition fresh (h : Host) : World := mkWorld h [].

End Registry.

Arguments World : clear implicits.
Arguments mkWorld {Host} _ _.

(** *** Reading a trace *)

Definition is_bootstrap_for (M : string) (e : TMEvent) : bool :=
  bool_decide (ev_site e = PrepareJNI_get)
  && bool_decide (ev_name e = prepare_module_name M).

Definition is_lookup_of (M : string) (e : TMEvent) : bool :=
  bool_decide (ev_site e ≠ PrepareJNI_get) && bool_decide (ev_name e = M).

Definition is_resolution_of (M : string) (e : TMEvent) : bool :=
  is_lookup_of M e && ev_found e.

Fixpoint count (p : TMEvent → bool) (tr : list TMEvent) : nat :=
  match tr with
  | [] => 0
  | e :: tr' => (if p e then 1 else 0) + count p tr'
  end.

(** A trace made of (bootstrap lookup, registry lookup) pairs for one and
    the same module. *)
Inductive Paired : list TMEvent → Prop :=
| Paired_nil : Paired []
| Paired_cons name b site r tr :
    site ≠ PrepareJNI_get →
    Paired tr →
    Paired (mkEvent PrepareJNI_get (prepare_module_name name) b
            :: mkEvent site name r :: tr).

(** The ordering property of the specification, read on a trace: exactly
    one bootstrap lookup for [M] comes before the first resolution of [M].
    [bootstrap_ok] says which events are bootstrap lookups for [M]. *)
Definition first_resolution_after_one_bootstrap
    (bootstrap_ok : string → TMEvent → bool) (M : string) (tr : list TMEvent) : Prop :=
  ∀ pre e post,
    tr = pre ++ e :: post →
    is_resolution_of M e = true →
    count (is_resolution_of M) pre = 0 →
    count (bootstrap_ok M) pre = 1.

Definition is_failed_lookup_of (M : string) (e : TMEvent) : bool :=
  is_lookup_of M e && negb (ev_found e).

(** The registry gave one and the same answer to every lookup of [M] in the
    trace: none of them found the module, or none of them missed it. *)
Definition answers_do_not_change (M : string) (tr : list TMEvent) : Prop :=
  count (is_resolution_of M) tr = 0 ∨ count (is_failed_lookup_of M) tr = 0.

End JniBootstrap.

(** ** The Android side: the package classes *)

Module AndroidPackage.

(** [ReactApplicationContext]; the packages read [filesDir.absolutePath]
    only. *)
Record ReactApplicationContext := mkContext {
  filesDir_absolutePath : string
}.

(** Calls that leave Kotlin for the C++ binding layer
    ([private external fun nativeSetDataPath(dataPath: String)]). *)
Inductive NativeCall := nativeSetDataPath (dataPath : string).

Record ReactModuleInfo := mkInfo {
  info_name : string;
  info_className : string;
  canOverrideExistingModule : bool;
  needsEagerInit : bool;
  isCxxModule : bool;
  isTurboModule : bool
}.

(** [ReactModuleInfo(name, name, false, false, false, true)] *)
Definition bootstrapInfo (name : string) : ReactModuleInfo :=
  mkInfo name name false false false true.

(** The scaffold [{{ pascal_name }}Package]. Its placeholders
    ([pascal_name], [flat_name], [kebab_name]) name the class, the Kotlin
    package and the shared library; the hook and the registration table do
    not mention them. *)
Module Template.

Definition JNI_PREPARE_MODULE_NAME : string := "__crabyUnknown_JNI_prepare__".

(** [override fun getModule(name, reactContext): NativeModule?]:
    the native calls made, and the value returned ([None] is [null]). *)
Definition getModule {NativeModule : Type}
    (name : string) (reactContext : ReactApplicationContext)
  : option NativeModule * list NativeCall :=
  (None, [nativeSetDataPath (filesDir_absolutePath reactContext)]).

(** The map built by [getReactModuleInfoProvider]. *)
Definition getReactModuleInfos : gmap string ReactModuleInfo :=
  <[JNI_PREPARE_MODULE_NAME := bootstrapInfo JNI_PREPARE_MODULE_NAME]> ∅.

End Template.

(** [CrabyTestPackage], the package of the example project with the two
    modules [Calculator] and [CrabyTest]. *)
Module CrabyTest.

(** [setOf(...)], an insertion-ordered set. *)
Definition JNI_PREPARE_MODULE_NAME : list string :=
  [ "__crabyCalculator_JNI_prepare__";
    "__crabyCrabyTest_JNI_prepare__" ].

Definition getModule {NativeModule : Type}
    (name : string) (reactContext : ReactApplicationContext)
  : option NativeModule * list NativeCall :=
  if bool_decide (name ∈ JNI_PREPARE_MODULE_NAME)
  then (None, [nativeSetDataPath (filesDir_absolutePath reactContext)])
  else (None, []).

(** [JNI_PREPARE_MODULE_NAME.forEach { name -> moduleInfos[name] = ... }] *)
Definition getReactModuleInfos : gmap string ReactModuleInfo :=
  foldl (fun moduleInfos name => <[name := bootstrapInfo name]> moduleInfos)
        ∅ JNI_PREPARE_MODULE_NAME.

End CrabyTest.

(** What the specification asks of a package's hook, given the table the
    package registers: the data path is forwarded for the registered
    bootstrap names and for no other name, and the hook answers [null] for
    them. *)
Definition forwards_precisely_on_bootstrap {NativeModule : Type}
    (hook : string → ReactApplicationContext → option NativeModule * list NativeCall)
    (moduleInfos : gmap string ReactModuleInfo) : Prop :=
  ∀ name reactContext,
    (nativeSetDataPath (filesDir_absolutePath reactContext)
       ∈ snd (hook name reactContext)
     ↔ is_Some (moduleInfos !! name))
    ∧ (is_Some (moduleInfos !! name) → fst (hook name reactContext) = None).

(** The package has a bootstrap entry under the name the JS side asks for
    on behalf of module [M]. *)
Definition registers_bootstrap_of
    (moduleInfos : gmap string ReactModuleInfo) (M : string) : Prop :=
  is_Some (moduleInfos !! JniBootstrap.prepare_module_name M).

End AndroidPackage.

(** ** Simulated registries

    Stand-ins for the host's [TurboModuleRegistry], used to run the binding
    layer on concrete inputs. A module object is represented by its name. *)

Module SimulatedRegistry.
Import JniBootstrap.

(** A registry with a fixed list of installed modules. *)
Definition static_get (name : string) (installed : list string)
  : option string * list string :=
  (if bool_decide (name ∈ installed) then Some name else None, installed).

Definition static_getEnforcing (name : string) (installed : list string)
  : Completion string string * list string :=
  (if bool_decide (name ∈ installed) then Return name
   else Throw ("module not found: " +:+ name), installed).

(** A registry whose installed modules are handed out from the second
    request for their name on; the state is the list of names requested so
    far. *)
Definition lazy_get (installed : list string) (name : string) (requested : list string)
  : option string * list string :=
  (if bool_decide (name ∈ installed) && bool_decide (name ∈ requested)
   then Some name else None,
   name :: requested).

Definition lazy_getEnforcing (installed : list string) (name : string) (requested : list string)
  : Completion string string * list string :=
  (if bool_decide (name ∈ installed) && bool_decide (name ∈ requested)
   then Return name
   else Throw ("module not found: " +:+ name), name :: requested).

End SimulatedRegistry.

(** ** The command line entry point (crabygen) *)

Module Cli.

(** [undefined] is [None]: indexing [process.argv] past its end. *)
Definition JsString : Type := option string.

(** [option.startsWith('-')] *)
Definition startsWith_dash (option : string) : bool := String.prefix "-" option.

(** [function isCodegenCommand(argv: string[])] *)
Definition isCodegenCommand (argv : list string) : bool :=
  let options := drop 2 argv in
  forallb startsWith_dash options.

(** [export function run(baseCommand: string)], for a given [process.argv]:
    the array handed to [cli.parse]. Registering the commands does not depend
    on the arguments. *)
Definition run (argv : list string) : list JsString :=
  if isCodegenCommand argv
  then [argv !! 0; argv !! 1; Some "codegen"] ++ (Some <$> drop 2 argv)
  else Some <$> argv.

(** What a [catch] clause may receive: an [Error] instance with its
    [message], or any other value. *)
Inductive Thrown :=
| ErrorInstance (message : string)
| OtherValue (description : string).

Inductive Completion (A : Type) :=
| Return (a : A)
| Throw (reason : Thrown).
Arguments Return {A} a.
Arguments Throw {A} reason.

Inductive Level := LevelError | LevelWarn | LevelInfo.

#[global] Instance Level_eq_dec : EqDecision Level.
Proof. solve_decision. Defined.

(** The process as the shell sees it: the lines printed so far, and the
    code given to [process.exit] once it has been called. *)
Record Process := mkProcess {
  printed : list (Level * string);
  exited : option Z
}.

Definition start : Process := mkProcess [] None.

(** The exit status: the argument of [process.exit], and 0 for a process
    that ends without calling it. *)
Definition exit_code (p : Process) : Z := default 0%Z (exited p).

(** [error(message)] of the CLI bindings prints one line at error level. *)
Definition error (message : string) (p : Process) : Process :=
  mkProcess (printed p ++ [(LevelError, message)]) (exited p).

Definition process_exit (code : Z) (p : Process) : Process :=
  mkProcess (printed p) (Some code).

(** [export function commonErrorHandler(reason: unknown)] *)
Definition commonErrorHandler (reason : Thrown) (p : Process) : Process :=
  let p' :=
    match reason with
    | ErrorInstance message => error message p
    | OtherValue _ => error "Unknown error" p
    end in
  process_exit 1 p'.

(** A command action: it may print, and it returns or throws. *)
Definition Action (T : Type) : Type := T → Process → Completion unit * Process.

(** [export function withErrorHandler<T = void>(action: (arg: T) => void)] *)
Definition withErrorHandler {T : Type} (action : Action T) (arg : T) (p : Process)
  : Process :=
  match action arg p with
  | (Return _, p') => p'
  | (Throw reason, p') => commonErrorHandler reason p'
  end.

Record CodegenOptions := mkCodegenOptions {
  projectRoot : string;
  overwrite : bool
}.

Section Codegen.
(** [codegen] of the CLI bindings and [process.cwd()] are external. *)
Variable codegen : Action CodegenOptions.
Variable cwd : string.

(** [export const runCodegen = withErrorHandler((overwrite: boolean) => ...)] *)
Definition runCodegen : bool → Process → Process :=
  withErrorHandler (fun overwrite => codegen (mkCodegenOptions cwd overwrite)).

End Codegen.

End Cli.

(** ** The Metro resolver of the example module (resolver.ts) *)

Module MetroResolver.

Record CreateResolverOptions := mkOptions {
  rootPath : string;
  singletonModules : option (list string)     (* [singletonModules?] *)
}.

Record CustomResolutionContext := mkContext {
  sourceExts : list string;
  originModulePath : string;
  preferNativePlatform : option bool          (* [preferNativePlatform?] *)
}.

Inductive Resolution :=
| sourceFile (filePath : string)
| assetFiles (filePaths : list string).

(** A call that returns a value or throws [new Error(message)]. *)
Inductive Result (A : Type) :=
| Resolved (a : A)
| Failed (message : string).
Arguments Resolved {A} a.
Arguments Failed {A} message.

Definition DEFAULT_SINGLETON_MODULES : list string := ["react"; "react-native"].

(** The options object given to [new ResolverFactory(...)]. *)
Record ResolverFactoryOptions := mkFactory {
  extensions : list string;
  conditionNames : list string;
  mainFields : list string;
  mainFiles : list string;
  modules : list string
}.

(** JS truthiness of [platform: string | null] and of an optional boolean. *)
Definition truthy_string (platform : option string) : bool :=
  match platform with
  | Some "" | None => false
  | Some _ => true
  end.

Definition truthy_bool (b : option bool) : bool := default false b.

(** The function value [resolve] returned by [createResolverImpl], given by
    what it closes over: [singletonModules], the [context] it was created
    with (read by [resolveSync] for its error message), [rootPath] and the
    oxc [resolver] object, which is determined by its options. *)
Record Resolver := mkResolver {
  closed_singletonModules : list string;
  closed_context : CustomResolutionContext;
  closed_rootPath : string;
  closed_resolver : ResolverFactoryOptions
}.

Section Resolve.
(** [path.join], [path.dirname] and [ResolverFactory.prototype.sync] (its
    [path] field, [None] for null or undefined) are external. *)
Variable path_join : string → string → string.
Variable path_dirname : string → string.
Variable oxc_sync : ResolverFactoryOptions → string → string → option string.

(** [function createResolverImpl(context, platform, rootPath)] inside
    [createResolver(options)]. *)
Definition createResolverImpl (options : CreateResolverOptions)
    (context : CustomResolutionContext) (platform : option string) (rootPath : string)
  : Resolver :=
  let singletonModules := default DEFAULT_SINGLETON_MODULES (singletonModules options) in
  let baseExtensions := map (fun extension => "." +:+ extension) (sourceExts context) in
  let finalExtensions := baseExtensions in
  let finalExtensions :=
    if truthy_bool (preferNativePlatform context)
    then map (fun extension => ".native" +:+ extension) baseExtensions ++ finalExtensions
    else finalExtensions in
  let finalExtensions :=
    if truthy_string platform
    then map (fun extension => "." +:+ default "" platform +:+ extension) baseExtensions
         ++ finalExtensions
    else finalExtensions in
  mkResolver singletonModules context rootPath
    (mkFactory finalExtensions
       ["react-native"; "require"; "node"; "default"]
       ["react-native"; "browser"; "main"]
       ["index"]
       ["node_modules"; path_join rootPath "src"]).

(** [function resolveSync(resolveDir, request)] *)
Definition resolveSync (r : Resolver) (resolveDir request : string) : Result string :=
  match oxc_sync (closed_resolver r) resolveDir request with
  | Some path => Resolved path
  | None =>
      Failed ("Failed to resolve " +:+ request +:+ " from "
              +:+ originModulePath (closed_context r))
  end.

Definition as_sourceFile (p : Result string) : Result Resolution :=
  match p with
  | Resolved path => Resolved (sourceFile path)
  | Failed message => Failed message
  end.

(** The loop [for (const nativeModule of singletonModules)]: the result of
    the first iteration that returns, if any does. *)
Fixpoint singleton_loop (r : Resolver) (singletons : list string) (request : string)
  : option (Result Resolution) :=
  match singletons with
  | [] => None
  | nativeModule :: rest =>
      if String.eqb request nativeModule
      then Some (as_sourceFile (resolveSync r (closed_rootPath r) request))
      else singleton_loop r rest request
  end.

(** The inner [function resolve(context, request)], applied. *)
Definition call_resolver (r : Resolver) (context : CustomResolutionContext)
    (request : string) : Result Resolution :=
  match singleton_loop r (closed_singletonModules r) request with
  | Some result => result
  | None =>
      as_sourceFile
        (resolveSync r (path_dirname (originModulePath context)) request)
  end.

(** The function returned by [createResolver(options)], with the module-level
    [resolvers] map passed in and out. *)
Definition resolve (options : CreateResolverOptions)
    (context : CustomResolutionContext) (request : string) (platform : option string)
    (resolvers : gmap (option string) Resolver)
  : Result Resolution * gmap (option string) Resolver :=
  let '(resolver, resolvers') :=
    match resolvers !! platform with
    | Some resolver => (resolver, resolvers)
    | None =>
        let resolver := createResolverImpl options context platform (rootPath options) in
        (resolver, <[platform := resolver]> resolvers)
    end in
  (call_resolver resolver context request, resolvers').

(** One use of a resolver obtained from [createResolver(options)]. *)
Record ResolveCall := mkCall {
  call_options : CreateResolverOptions;
  call_context : CustomResolutionContext;
  call_request : string;
  call_platform : option string
}.

Definition resolve_call (c : ResolveCall) (resolvers : gmap (option string) Resolver)
  : Result Resolution * gmap (option string) Resolver :=
  resolve (call_options c) (call_context c) (call_request c) (call_platform c) resolvers.

(** The map after a sequence of calls, thrown errors included. *)
Fixpoint run_calls (calls : list ResolveCall) (resolvers : gmap (option string) Resolver)
  : gmap (option string) Resolver :=
  match calls with
  | [] => resolvers
  | c :: cs => run_calls cs (snd (resolve_call c resolvers))
  end.

(** A cache whose key is the pair (platform, resolver function) would serve
    each call with the resolver its own inputs determine. *)
Definition served_by_own_resolver (c : ResolveCall)
    (resolvers : gmap (option string) Resolver) : Prop :=
  snd (resolve_call c resolvers) !! call_platform c =
    Some (createResolverImpl (call_options c) (call_context c) (call_platform c)
            (rootPath (call_options c))).

End Resolve.

(** [const resolvers = new Map()] *)
Definition resolvers_at_load : gmap (option string) Resolver := ∅.

End MetroResolver.

(** ** A simulated file system for the resolver *)

Module SimulatedFiles.

Definition join (a b : string) : string := a +:+ "/" +:+ b.

(** The part of [s] before its last [/], [None] when it has none. *)
Fixpoint before_last_slash (s : string) : option string :=
  match s with
  | "" => None
  | String c rest =>
      match before_last_slash rest with
      | Some d => Some (String c d)
      | None => if Ascii.eqb c "/" then Some "" else None
      end
  end.

Definition dirname (s : string) : string :=
  match before_last_slash s with
  | Some "" => "/"
  | Some d => d
  | None => "."
  end.

(** A resolver over a list of existing files: the request is tried in
    [resolveDir] with each extension in turn. *)
Definition sync (files : list string) (o : MetroResolver.ResolverFactoryOptions)
    (resolveDir request : string) : option string :=
  List.find (fun candidate => bool_decide (candidate ∈ files))
    (map (fun extension => join resolveDir request +:+ extension)
         (MetroResolver.extensions o)).

End SimulatedFiles.

(** ** Build targets *)

Module BuildTargets.

Inductive PlatformFamily := iOS | Android.

#[global] Instance PlatformFamily_eq_dec : EqDecision PlatformFamily.
Proof. solve_decision. Defined.

(** Modelled from the spec: the build orchestrator and its target table are
    in the Rust crates, which are not among the sources; the families and
    their sizes are those of the specification (two families, one with two
    triples and one with four), the triples those listed under "By default,
    this builds for" in docs/guide/build.md. *)
Definition default_targets : list (PlatformFamily * list string) :=
  [ (iOS, ["aarch64-apple-ios"; "aarch64-apple-ios-sim"]);
    (Android, ["aarch64-linux-android"; "armv7-linux-androideabi";
               "i686-linux-android"; "x86_64-linux-android"]) ].

Definition families : list PlatformFamily := map fst default_targets.

Definition triples_of (f : PlatformFamily) : list string :=
  concat (map snd (filter (fun entry => fst entry = f) default_targets)).

End BuildTargets.

(** ** Naming and type mapping of the code generator *)

Module Naming.

Definition in_range (lo hi : nat) (c : ascii) : bool :=
  ((lo <=? nat_of_ascii c)%nat && (nat_of_ascii c <=? hi)%nat)%bool.

Definition is_upper : ascii → bool := in_range 65 90.
Definition is_lower : ascii → bool := in_range 97 122.
Definition is_digit : ascii → bool := in_range 48 57.
Definition is_letter (c : ascii) : bool := is_upper c || is_lower c.

Definition lower_char (c : ascii) : ascii :=
  if is_upper c then ascii_of_nat (nat_of_ascii c + 32) else c.

Fixpoint lower_word (s : string) : string :=
  match s with
  | "" => ""
  | String c rest => String (lower_char c) (lower_word rest)
  end.

(** Modelled from the spec: the naming converter is in the Rust crates,
    which are not among the sources. A word ends between [a] and [b] at a
    case boundary (lower case, then upper case) and at a digit/letter
    boundary. *)
Definition boundary (a b : ascii) : bool :=
  (is_lower a && is_upper b)
  || (is_digit a && is_letter b)
  || (is_letter a && is_digit b).

(** Modelled from the spec: the naming converter is in the Rust crates,
    which are not among the sources. The segments of an identifier, split at
    its boundaries. *)
Fixpoint segments (s : string) : list string :=
  match s with
  | "" => []
  | String c rest =>
      match segments rest with
      | w :: ws =>
          match w with
          | String d _ =>
              if boundary c d then String c "" :: w :: ws else String c w :: ws
          | "" => String c "" :: ws
          end
      | [] => [String c ""]
      end
  end.

(** Modelled from the spec: the naming converter is in the Rust crates,
    which are not among the sources. [toSnake] splits at the boundaries,
    lower-cases each segment and joins the segments with an underscore. *)
Definition toSnake (identifier : string) : string :=
  String.concat "_" (map lower_word (segments identifier)).

Fixpoint all_chars (p : ascii → bool) (s : string) : bool :=
  match s with
  | "" => true
  | String c rest => p c && all_chars p rest
  end.

Inductive PrimitiveKind := KNumber | KString | KBoolean | KVoid.

(** Modelled from the spec: the intermediate representation is built by the
    Rust crates, which are not among the sources. The [TypeRef] variants of
    the data model. *)
Inductive TypeRef :=
| Primitive (kind : PrimitiveKind)
| RecordRef (name : string)
| EnumRef (name : string)
| Array (element : TypeRef)
| Nullable (inner : TypeRef)
| Deferred (inner : TypeRef)
| Reactive
| Unsupported (reason : string).

(** Modelled from the spec: the target types of the type mapper, which is
    in the Rust crates. [TText] is the text-string type. *)
Inductive TargetType :=
| TNumber | TText | TBoolean | TUnit
| TRecord (name : string)
| TEnum (name : string)
| TList (element : TargetType)
| TOptional (inner : TargetType)
| TFuture (inner : TargetType)
| TChannel.

Inductive Position := AsParameter | AsReturn.

Definition is_deferred (t : TypeRef) : bool :=
  match t with Deferred _ => true | _ => false end.

(** Modelled from the spec: the type mapper is in the Rust crates, which are
    not among the sources. Primitives, arrays, nullable wrappers and
    references to declared records and enums are mapped; [Deferred] is
    mapped at the top of a return type only (see [map_type]); the reactive
    channel, a parameter type, is mapped by [map_type] as well. *)
Fixpoint map_inner (declared : string → bool) (t : TypeRef) : TargetType + string :=
  match t with
  | Primitive KNumber => inl TNumber
  | Primitive KString => inl TText
  | Primitive KBoolean => inl TBoolean
  | Primitive KVoid => inl TUnit
  | RecordRef name =>
      if declared name then inl (TRecord name) else inr ("undeclared type " +:+ name)
  | EnumRef name =>
      if declared name then inl (TEnum name) else inr ("undeclared type " +:+ name)
  | Array element =>
      match map_inner declared element with
      | inl e => inl (TList e)
      | inr reason => inr reason
      end
  | Nullable inner =>
      match map_inner declared inner with
      | inl e => inl (TOptional e)
      | inr reason => inr reason
      end
  | Deferred _ => inr "nested deferred result"
  | Reactive => inr "reactive channel outside a parameter"
  | Unsupported reason => inr reason
  end.

(** Modelled from the spec: the type mapper is in the Rust crates, which are
    not among the sources. [map_type] is the mapper of section 4.2: one
    level of [Deferred] around a supported type, in return position, and the
    reactive channel in parameter position. *)
Definition map_type (declared : string → bool) (p : Position) (t : TypeRef)
  : TargetType + string :=
  match t, p with
  | Deferred inner, AsReturn =>
      match map_inner declared inner with
      | inl e => inl (TFuture e)
      | inr reason => inr reason
      end
  | Reactive, AsParameter => inl TChannel
  | _, _ => map_inner declared t
  end.

Record MethodSignature := mkMethod {
  method_name : string;
  method_params : list (string * TypeRef);
  method_return : TypeRef
}.

Record TraitMethod := mkTraitMethod {
  trait_name : string;
  trait_params : list (string * TargetType);
  trait_return : TargetType
}.

Fixpoint map_params (declared : string → bool) (ps : list (string * TypeRef))
  : list (string * TargetType) + string :=
  match ps with
  | [] => inl []
  | (name, t) :: rest =>
      match map_type declared AsParameter t, map_params declared rest with
      | inl t', inl rest' => inl ((toSnake name, t') :: rest')
      | inr reason, _ => inr reason
      | _, inr reason => inr reason
      end
  end.

(** Modelled from the spec: the code generator is in the Rust crates, which
    are not among the sources. One trait method per method signature, with
    converted identifiers and mapped types. *)
Definition generate_method (declared : string → bool) (m : MethodSignature)
  : TraitMethod + string :=
  match map_params declared (method_params m),
        map_type declared AsReturn (method_return m) with
  | inl ps, inl r => inl (mkTraitMethod (toSnake (method_name m)) ps r)
  | inr reason, _ => inr reason
  | _, inr reason => inr reason
  end.

End Naming.

(** ** The Metro configuration of the example (metro config helper) *)

Module MetroConfig.
Import MetroResolver.

(** How a loop that is run with fuel ends: it returned, it threw, or the
    fuel ran out before it did either. *)
Inductive Loop (A : Type) :=
| Finished (a : A)
| Threw (message : string)
| OutOfFuel.
Arguments Finished {A} a.
Arguments Threw {A} message.
Arguments OutOfFuel {A}.

(** What [getConfig] returns. The function [createResolver(options)] is
    given by its [options]. *)
Record Config := mkConfig {
  projectRoot : string;
  watchFolders : list (option string);
  resolver_resolveRequest : CreateResolverOptions
}.

Section Workspace.
(** [path], [fs] and [JSON] are external. [JSON.parse] throws on malformed
    text; [Array.isArray(packageJson.workspaces)] throws when the parsed
    value is [null]. *)
Context {Json : Type}.
Variable path_dirname : string → string.
Variable path_join : string → string → string.
Variable fs_existsSync : string → bool.
Variable fs_readFileSync : string → Result string.
Variable JSON_parse : string → Result Json.
Variable workspaces_isArray : Json → Result bool.

(** The body of the [while] loop up to its [return]: [Resolved true] when it
    returns [rootDir], [Resolved false] when it goes on to the parent
    directory, [Failed] when it throws. *)
Definition inspect (rootDir : string) : Result bool :=
  let packageJsonPath := path_join rootDir "package.json" in
  if fs_existsSync packageJsonPath then
    match fs_readFileSync packageJsonPath with
    | Failed message => Failed message
    | Resolved rawPackageJson =>
        match JSON_parse rawPackageJson with
        | Failed message => Failed message
        | Resolved packageJson => workspaces_isArray packageJson
        end
    end
  else Resolved false.

(** [function getWorkspaceRoot(rootDir: string)]; one unit of fuel per test
    of the loop condition. *)
Fixpoint getWorkspaceRoot (fuel : nat) (rootDir : string) : Loop (option string) :=
  match fuel with
  | 0 => OutOfFuel
  | S fuel' =>
      if bool_decide (path_dirname rootDir ≠ rootDir) then
        match inspect rootDir with
        | Failed message => Threw message
        | Resolved true => Finished (Some rootDir)
        | Resolved false => getWorkspaceRoot fuel' (path_dirname rootDir)
        end
      else Finished None
  end.

(** [export function getConfig(rootDir: string)] *)
Definition getConfig (fuel : nat) (rootDir : string) : Loop Config :=
  match getWorkspaceRoot fuel rootDir with
  | Finished workspaceRoot =>
      Finished (mkConfig rootDir [workspaceRoot] (mkOptions rootDir None))
  | Threw message => Threw message
  | OutOfFuel => OutOfFuel
  end.

End Workspace.

End MetroConfig.

(** ** The test runner of the example application (app.tsx, result-card.tsx) *)

Module TestSuites.

(** How an evaluation ends: with a value, or with a thrown exception. *)
Inductive Evaluation (A : Type) :=
| Value (a : A)
| Exception (message : string).
Arguments Value {A} a.
Arguments Exception {A} message.

Section Format.
(** Values other than [null], [undefined] and arrays, and what
    [JSON.stringify(value, null, 4)] makes of them: a string, [undefined]
    ([None]; a function, a symbol), or a thrown [TypeError] (a BigInt, a
    circular structure, a [toJSON] that throws). *)
Context {O : Type}.
Variable JSON_stringify : O → Evaluation (option string).

(** The values [formatResult] tells apart. The items of an array are its
    elements, [None] for a hole. [JCircularArray] is an array that contains
    itself, directly or through other arrays. *)
Inductive JsValue :=
| JNull
| JUndefined
| JArray (items : list (option JsValue))
| JCircularArray
| JOther (o : O).

(** [items.join(', ')]: an element that is [undefined] gives the empty
    string. *)
Definition join_comma (items : list (option string)) : string :=
  String.concat ", " (map (default "") items).

(** [const formatResult = (value: any): string]. On an array, [map] calls
    [formatResult] on the elements from left to right and skips the holes;
    the first exception ends the call. On a circular array the recursion
    does not end and the engine throws a [RangeError]. *)
Fixpoint formatResult (value : JsValue) : Evaluation (option string) :=
  match value with
  | JNull => Value (Some "null")
  | JUndefined => Value (Some "undefined")
  | JArray items =>
      let mapped :=
        (fix map_formatResult (l : list (option JsValue))
           : Evaluation (list (option string)) :=
           match l with
           | [] => Value []
           | None :: rest =>
               match map_formatResult rest with
               | Value formatted => Value (None :: formatted)
               | Exception message => Exception message
               end
           | Some item :: rest =>
               match formatResult item with
               | Exception message => Exception message
               | Value first =>
                   match map_formatResult rest with
                   | Value formatted => Value (first :: formatted)
                   | Exception message => Exception message
                   end
               end
           end) items in
      match mapped with
      | Value formatted => Value (Some ("[" +:+ join_comma formatted +:+ "]"))
      | Exception message => Exception message
      end
  | JCircularArray => Exception "Maximum call stack size exceeded"
  | JOther o => JSON_stringify o
  end.

(** What awaiting [test.action()] gives: a value, a thrown [Error] with its
    [message], or another thrown value with the text [String(error)] makes
    of it. *)
Inductive ActionOutcome :=
| Returned (result : JsValue)
| ThrewError (message : string)
| ThrewOther (text : string).

Record Test := mkTest {
  label : string;
  description : option string;
  action : ActionOutcome
}.

Record TestResult := mkTestResult {
  result_label : string;
  result_description : option string;
  result_value : JsValue;
  result_error : option string
}.

(** One turn of the loop of [runAllTests]: the object pushed on [results]. *)
Definition run_test (test : Test) : TestResult :=
  match action test with
  | Returned result => mkTestResult (label test) (description test) result None
  | ThrewError message =>
      mkTestResult (label test) (description test) JNull (Some message)
  | ThrewOther text =>
      mkTestResult (label test) (description test) JNull (Some text)
  end.

(** Whether a test ends up without an error text: it returned, or what it
    threw has the empty text. *)
Definition counted_as_passed (test : Test) : bool :=
  match action test with
  | Returned _ => true
  | ThrewError message => bool_decide (message = "")
  | ThrewOther text => bool_decide (text = "")
  end.

Record AppState := mkAppState {
  testResults : list TestResult;
  isRunning : bool
}.

(** [const runAllTests = async () => ...]: the state once it has finished. *)
Definition runAllTests (TEST_SUITES : list Test) (state : AppState) : AppState :=
  let results := foldl (fun results test => results ++ [run_test test]) [] TEST_SUITES in
  mkAppState results false.

(** Truthiness of an optional string. *)
Definition truthy (s : option string) : bool :=
  match s with
  | None | Some "" => false
  | Some _ => true
  end.

(** [testResults.filter((testResult) => !testResult.error).length] *)
Definition passed_count (results : list TestResult) : nat :=
  length (List.filter (fun testResult => negb (truthy (result_error testResult))) results).

(** The body of a card: the error text, or the [Code] block with the text it
    is given ([None] when that is [undefined]). *)
Inductive CardBody :=
| ErrorText (error : string)
| CodeBlock (code : option string).

(** What [ResultCard] renders. *)
Record Card := mkCard {
  cardTitle : string;
  cardStatus : string;
  cardStatusColor : string;
  cardDescription : option string;
  cardBody : CardBody
}.

(** [export function ResultCard({ label, description, result, error })].
    [formatResult(result)] is evaluated before [error] is looked at: when it
    throws, nothing is rendered. *)
Definition ResultCard (r : TestResult) : Evaluation Card :=
  let isSuccess := negb (truthy (result_error r)) in
  let statusColor := if isSuccess then "#10B981" else "#EF4444" in
  match formatResult (result_value r) with
  | Exception message => Exception message
  | Value formattedResult =>
      Value
        (mkCard (result_label r)
           (if isSuccess then "Passed" else "Error")
           statusColor
           (if truthy (result_description r) then result_description r else None)
           (if truthy (result_error r)
            then ErrorText (default "" (result_error r))
            else CodeBlock formattedResult))
  end.

(** [testResults.map((testResult, index) => <ResultCard ... />)]: the cards
    of the list, or the first exception. *)
Fixpoint render_cards (results : list TestResult) : Evaluation (list Card) :=
  match results with
  | [] => Value []
  | r :: rest =>
      match ResultCard r with
      | Exception message => Exception message
      | Value card =>
          match render_cards rest with
          | Value cards => Value (card :: cards)
          | Exception message => Exception message
          end
      end
  end.

End Format.

End TestSuites.

(** ** The MDX component table of the documentation site *)

Module DocsMdx.

Section Components.
(** Components imported from elsewhere. *)
Context {X : Type}.
Variable Mermaid : X.
Variable TossFace : X.

Inductive Component :=
| Imported (c : X)
(** [(props) => <defaultMdxComponents.Callout ... />], with the value of
    [defaultMdxComponents.Callout] it reads. *)
| CalloutOverride (base : option Component)
(** [({ ref, ...props }) => <CodeBlock ...><Pre>...</Pre></CodeBlock>] *)
| PreOverride.

(** [{ ...target, ...source }]: the keys of [source] win. *)
Definition spread (target source : gmap string Component) : gmap string Component :=
  source ∪ target.

(** [export function getMDXComponents(components?: MDXComponents)] *)
Definition getMDXComponents
    (defaultMdxComponents TabsComponents : gmap string Component)
    (components : option (gmap string Component)) : gmap string Component :=
  let o := spread ∅ defaultMdxComponents in
  let o := spread o TabsComponents in
  let o := spread o (default ∅ components) in
  let o := <["Mermaid" := Imported Mermaid]> o in
  let o := <["TossFace" := Imported TossFace]> o in
  let o := <["Callout" := CalloutOverride (defaultMdxComponents !! "Callout")]> o in
  <["pre" := PreOverride]> o.

End Components.

End DocsMdx.

(** ** A simulated disk for the configuration helper *)

Module SimulatedDisk.
Import MetroResolver.

(** A measure that [SimulatedFiles.dirname] decreases until it reaches [/]
    or [.]. *)
Definition depth (p : string) : nat :=
  if bool_decide (p = "/" ∨ p = ".") then 0 else S (String.length p).

(** Files, as (path, content) pairs. *)
Definition existsSync (disk : list (string * string)) (p : string) : bool :=
  bool_decide (p ∈ map fst disk).

Definition readFileSync (disk : list (string * string)) (p : string) : Result string :=
  match List.find (fun entry => String.eqb (fst entry) p) disk with
  | Some entry => Resolved (snd entry)
  | None => Failed ("ENOENT: no such file or directory, open " +:+ p)
  end.

(** A stand-in for [JSON.parse]: the text itself, and an error for the empty
    text. *)
Definition parse (raw : string) : Result string :=
  if String.eqb raw "" then Failed "Unexpected end of JSON input" else Resolved raw.

(** A stand-in for [Array.isArray(packageJson.workspaces)] on those texts. *)
Definition workspaces_isArray (packageJson : string) : Result bool :=
  if String.eqb packageJson "null"
  then Failed "Cannot read properties of null (reading 'workspaces')"
  else Resolved (String.prefix "{workspaces:[" packageJson).

End SimulatedDisk.

(** * Properties *)

(** ** Generic string facts *)

Lemma string_length_app (a b : string) :
  String.length (a +:+ b) = String.length a + String.length b.
Proof. induction a as [|c a IH]; simpl; [done | by rewrite IH]. Qed.

Lemma string_app_inj_l (p a b : string) : p +:+ a = p +:+ b → a = b.
Proof. induction p as [|c p IH]; simpl; [done | intros [= H]; auto]. Qed.

Lemma string_app_inj_r (a b s : string) : a +:+ s = b +:+ s → a = b.
Proof.
  revert b. induction a as [|c a IH]; intros [|d b] H; simpl in *.
  - done.
  - apply (f_equal String.length) in H.
    rewrite !string_length_app in H. simpl in H. lia.
  - apply (f_equal String.length) in H.
    rewrite !string_length_app in H. simpl in H. lia.
  - injection H as -> H. f_equal. by apply IH.
Qed.


(** ** The bootstrap handshake on the JS side *)

Section BootstrapFacts.
Import JniBootstrap.
Context {Host Mod Exn : Type}.
Variable turbo_get : string → Host → option Mod * Host.
Variable turbo_getEnforcing : string → Host → Completion Exn Mod * Host.

Lemma prepare_module_name_inj (a b : string) :
  prepare_module_name a = prepare_module_name b → a = b.
Proof.
  unfold prepare_module_name. intros H.
  apply string_app_inj_l in H. by apply string_app_inj_r in H.
Qed.

Lemma prepareJNI_android (moduleName : string) (w : World Host) :
  prepareJNI (Exn := Exn) "android" turbo_get moduleName w =
    (Return tt,
     mkWorld (snd (turbo_get (prepare_module_name moduleName) (host w)))
       (trace w ++
        [mkEvent PrepareJNI_get (prepare_module_name moduleName)
           (bool_decide (is_Some (fst (turbo_get (prepare_module_name moduleName) (host w)))))])).
Proof.
  unfold prepareJNI, bind, TurboModuleRegistry_get, ret.
  rewrite bool_decide_false by (intros H; by apply H).
  by destruct (turbo_get _ _).
Qed.

Lemma prepareJNI_elsewhere (OS moduleName : string) (w : World Host) :
  OS ≠ "android" →
  prepareJNI (Mod := Mod) (Exn := Exn) OS turbo_get moduleName w = (Return tt, w).
Proof. intros H. unfold prepareJNI. by rewrite bool_decide_true. Qed.

Lemma NativeModuleRegistry_get_android (moduleName : string) (w : World Host) :
  let boot := turbo_get (prepare_module_name moduleName) (host w) in
  let real := turbo_get moduleName (snd boot) in
  NativeModuleRegistry_get (Exn := Exn) "android" turbo_get moduleName w =
    (Return (fst real),
     mkWorld (snd real)
       (trace w ++
        [mkEvent PrepareJNI_get (prepare_module_name moduleName)
           (bool_decide (is_Some (fst boot)));
         mkEvent Registry_get moduleName (bool_decide (is_Some (fst real)))])).
Proof.
  cbv zeta. unfold NativeModuleRegistry_get, bind. rewrite prepareJNI_android.
  unfold TurboModuleRegistry_get. simpl.
  destruct (turbo_get moduleName _) as [r h2]. simpl.
  by rewrite <- app_assoc.
Qed.

Lemma NativeModuleRegistry_getEnforcing_android (moduleName : string) (w : World Host) :
  let boot := turbo_get (prepare_module_name moduleName) (host w) in
  let real := turbo_getEnforcing moduleName (snd boot) in
  NativeModuleRegistry_getEnforcing "android" turbo_get turbo_getEnforcing moduleName w =
    (fst real,
     mkWorld (snd real)
       (trace w ++
        [mkEvent PrepareJNI_get (prepare_module_name moduleName)
           (bool_decide (is_Some (fst boot)));
         mkEvent Registry_getEnforcing moduleName (completed (fst real))])).
Proof.
  cbv zeta. unfold NativeModuleRegistry_getEnforcing, bind. rewrite prepareJNI_android.
  unfold TurboModuleRegistry_getEnforcing. simpl.
  destruct (turbo_getEnforcing moduleName _) as [r h2]. simpl.
  by rewrite <- app_assoc.
Qed.

(** C1. On Android, [NativeModuleRegistry.get] and [.getEnforcing] first
    look the synthetic bootstrap name up and only then, in the same call
    and on the host state the bootstrap lookup left behind, the module
    itself: the call adds exactly these two lookups to the trace, in this
    order, whatever was looked up before (nothing, at process start). *)
Theorem bootstrap_lookup_precedes_real_lookup (moduleName : string) (w : World Host) :
  let boot := turbo_get (prepare_module_name moduleName) (host w) in
  let boot_event :=
    mkEvent PrepareJNI_get (prepare_module_name moduleName)
      (bool_decide (is_Some (fst boot))) in
  let real := turbo_get moduleName (snd boot) in
  let realE := turbo_getEnforcing moduleName (snd boot) in
  NativeModuleRegistry_get (Exn := Exn) "android" turbo_get moduleName w =
    (Return (fst real),
     mkWorld (snd real)
       (trace w ++ [boot_event;
                    mkEvent Registry_get moduleName (bool_decide (is_Some (fst real)))]))
  ∧ NativeModuleRegistry_getEnforcing "android" turbo_get turbo_getEnforcing moduleName w =
    (fst realE,
     mkWorld (snd realE)
       (trace w ++ [boot_event;
                    mkEvent Registry_getEnforcing moduleName (completed (fst realE))]))
  ∧ trace (snd (NativeModuleRegistry_get (Exn := Exn) "android" turbo_get moduleName
                  (fresh (host w)))) =
      [boot_event; mkEvent Registry_get moduleName (bool_decide (is_Some (fst real)))]
  ∧ trace (snd (NativeModuleRegistry_getEnforcing "android" turbo_get turbo_getEnforcing
                  moduleName (fresh (host w)))) =
      [boot_event; mkEvent Registry_getEnforcing moduleName (completed (fst realE))].
Proof.
  cbv zeta. repeat split.
  - apply NativeModuleRegistry_get_android.
  - apply NativeModuleRegistry_getEnforcing_android.
  - by rewrite NativeModuleRegistry_get_android.
  - by rewrite NativeModuleRegistry_getEnforcing_android.
Qed.

(** *** Traces of whole runs *)

Lemma Paired_app (a b : list TMEvent) : Paired a → Paired b → Paired (a ++ b).
Proof. induction 1; simpl; [done | intros; constructor; auto]. Qed.

Lemma exec_android (c : Call) (w : World Host) :
  ∃ b site r,
    site ≠ PrepareJNI_get ∧
    trace (exec "android" turbo_get turbo_getEnforcing c w) =
      trace w ++ [mkEvent PrepareJNI_get (prepare_module_name (call_name c)) b;
                  mkEvent site (call_name c) r].
Proof.
  destruct c as [n|n]; simpl.
  - rewrite NativeModuleRegistry_get_android. simpl. by eexists _, Registry_get, _.
  - rewrite NativeModuleRegistry_getEnforcing_android. simpl.
    by eexists _, Registry_getEnforcing, _.
Qed.

Lemma run_android_paired (calls : list Call) (w : World Host) :
  Paired (trace w) →
  Paired (trace (run_calls "android" turbo_get turbo_getEnforcing calls w)).
Proof.
  revert w. induction calls as [|c cs IH]; intros w Hw; simpl; [done |].
  apply IH. destruct (exec_android c w) as (b & site & r & Hs & ->).
  apply Paired_app; [done |]. by repeat constructor.
Qed.

Lemma exec_elsewhere (OS : string) (c : Call) (w : World Host) :
  OS ≠ "android" →
  ∃ site r,
    site ≠ PrepareJNI_get ∧
    trace (exec OS turbo_get turbo_getEnforcing c w) =
      trace w ++ [mkEvent site (call_name c) r].
Proof.
  intros HOS. destruct c as [n|n]; simpl.
  - unfold NativeModuleRegistry_get, bind. rewrite prepareJNI_elsewhere by done.
    unfold TurboModuleRegistry_get. destruct (turbo_get n _). simpl.
    by eexists Registry_get, _.
  - unfold NativeModuleRegistry_getEnforcing, bind.
    rewrite prepareJNI_elsewhere by done.
    unfold TurboModuleRegistry_getEnforcing. destruct (turbo_getEnforcing n _). simpl.
    by eexists Registry_getEnforcing, _.
Qed.

Lemma count_app (p : TMEvent → bool) (a b : list TMEvent) :
  count p (a ++ b) = count p a + count p b.
Proof. induction a as [|x a IH]; simpl; [done | rewrite IH; lia]. Qed.

Lemma is_bootstrap_for_site (M : string) (e : TMEvent) :
  ev_site e ≠ PrepareJNI_get → is_bootstrap_for M e = false.
Proof. intros H. unfold is_bootstrap_for. by rewrite bool_decide_false. Qed.

Lemma is_lookup_of_site (M : string) (e : TMEvent) :
  ev_site e = PrepareJNI_get → is_lookup_of M e = false.
Proof.
  intros H. unfold is_lookup_of. rewrite bool_decide_false; [done |].
  intros H'. by apply H'.
Qed.

Lemma run_elsewhere_no_bootstrap (OS : string) (calls : list Call) (w : World Host) (M : string) :
  OS ≠ "android" →
  count (is_bootstrap_for M) (trace (run_calls OS turbo_get turbo_getEnforcing calls w)) =
  count (is_bootstrap_for M) (trace w).
Proof.
  intros HOS. revert w. induction calls as [|c cs IH]; intros w; simpl; [done |].
  rewrite IH. destruct (exec_elsewhere OS c w HOS) as (site & r & Hs & ->).
  rewrite count_app. simpl. rewrite is_bootstrap_for_site by done. lia.
Qed.

(** The two events of one pair are for the same module: the first counts as
    a bootstrap lookup for [M] exactly when the second counts as a lookup
    of [M]. *)
Lemma pair_same_module (M name : string) (b r : bool) (site : CallSite) :
  site ≠ PrepareJNI_get →
  is_bootstrap_for M (mkEvent PrepareJNI_get (prepare_module_name name) b) =
  is_lookup_of M (mkEvent site name r).
Proof.
  intros Hs. unfold is_bootstrap_for, is_lookup_of. simpl.
  rewrite (bool_decide_true (site ≠ PrepareJNI_get)) by done. simpl.
  apply bool_decide_ext. split; [apply prepare_module_name_inj | by intros ->].
Qed.

Lemma Paired_split (tr : list TMEvent) :
  Paired tr →
  ∀ M pre e post,
    tr = pre ++ e :: post →
    is_lookup_of M e = true →
    count (is_bootstrap_for M) pre = S (count (is_lookup_of M) pre)
    ∧ ∃ pre' b, pre = pre' ++ [b] ∧ is_bootstrap_for M b = true.
Proof.
  induction 1 as [|name b site r tr Hs Htr IH]; intros M pre e post Heq He.
  - by destruct pre.
  - destruct pre as [|x [|y pre]]; simpl in Heq.
    + injection Heq as <- _. by rewrite is_lookup_of_site in He.
    + injection Heq as <- <- _. cbn [count].
      rewrite (pair_same_module M name b r site Hs), He.
      rewrite is_lookup_of_site by done. split; [done |].
      exists [], (mkEvent PrepareJNI_get (prepare_module_name name) b).
      split; [done |]. by rewrite (pair_same_module M name b r site Hs).
    + injection Heq as <- <- Heq.
      destruct (IH M pre e post Heq He) as [Hc (pre' & b' & -> & Hb')].
      split.
      * cbn [count]. rewrite Hc.
        rewrite (pair_same_module M name b r site Hs).
        rewrite (is_lookup_of_site M (mkEvent PrepareJNI_get _ b)) by done.
        rewrite (is_bootstrap_for_site M (mkEvent site name r)) by done.
        lia.
      * by exists (mkEvent PrepareJNI_get (prepare_module_name name) b
                   :: mkEvent site name r :: pre'), b'.
Qed.

Lemma count_zero (p : TMEvent → bool) (tr : list TMEvent) :
  count p tr = 0 ↔ ∀ x, x ∈ tr → p x = false.
Proof.
  induction tr as [|e tr IH]; simpl.
  - split; [| done]. intros _ x Hx. by apply elem_of_nil in Hx.
  - split.
    + intros H x Hx. destruct (p e) eqn:Hp; [lia |].
      apply elem_of_cons in Hx as [-> | Hx]; [done |]. apply IH; [lia | done].
    + intros H. rewrite (H e) by (apply elem_of_cons; by left). simpl.
      apply IH. intros x Hx. apply H, elem_of_cons. by right.
Qed.

Lemma first_resolution_in_paired_trace (M : string) (tr : list TMEvent) :
  Paired tr →
  answers_do_not_change M tr →
  first_resolution_after_one_bootstrap is_bootstrap_for M tr.
Proof.
  intros HP Hans pre e post Htr He Hfirst.
  apply andb_true_iff in He as [Hlookup Hfound].
  destruct (Paired_split tr HP M pre e post Htr Hlookup) as [-> _].
  f_equal. apply count_zero. intros x Hx.
  destruct (is_lookup_of M x) eqn:Hl; [| done]. exfalso.
  assert (Hxtr : x ∈ tr) by (subst tr; apply elem_of_app; by left).
  assert (Hetr : e ∈ tr).
  { subst tr. apply elem_of_app. right. apply elem_of_cons. by left. }
  destruct Hans as [Hnone | Hnofail].
  - pose proof (proj1 (count_zero _ _) Hnone e Hetr) as H.
    unfold is_resolution_of in H. by rewrite Hlookup, Hfound in H.
  - pose proof (proj1 (count_zero _ _) Hnofail x Hxtr) as Hx'.
    unfold is_failed_lookup_of in Hx'. rewrite Hl in Hx'. simpl in Hx'.
    apply negb_false_iff in Hx'.
    pose proof (proj1 (count_zero _ _) Hfirst x Hx) as H.
    unfold is_resolution_of in H. by rewrite Hl, Hx' in H.
Qed.

(** C4. On Android, whatever the sequence of requests made to the registry
    after process start, and provided the host answers the lookups of a
    module [M] in one and the same way during the run, the first successful
    resolution of [M] has exactly one bootstrap lookup for [M] before it.
    That lookup is the event right before the resolution: the bootstrap
    lookup of the same request. The bootstrap lookup is the one made by
    [prepareJNI]; the hook answers it with null. *)
Theorem first_resolution_follows_one_bootstrap (calls : list Call) (h0 : Host)
    (M : string) :
  let tr := trace (run_calls "android" turbo_get turbo_getEnforcing calls (fresh h0)) in
  answers_do_not_change M tr →
  first_resolution_after_one_bootstrap is_bootstrap_for M tr
  ∧ ∀ pre e post,
      tr = pre ++ e :: post →
      is_resolution_of M e = true →
      ∃ pre' b, pre = pre' ++ [b] ∧ is_bootstrap_for M b = true.
Proof.
  cbv zeta. intros Hans.
  assert (HP : Paired (trace (run_calls "android" turbo_get turbo_getEnforcing calls
                                (fresh h0))))
    by (apply run_android_paired; constructor).
  split; [by apply first_resolution_in_paired_trace |].
  intros pre e post Htr He. apply andb_true_iff in He as [Hlookup _].
  by destruct (Paired_split _ HP M pre e post Htr Hlookup) as [_ H].
Qed.

(** A registry whose answer to a lookup depends on the name only, in every
    state it can reach: its answers for a module do not change during a
    run. *)
Lemma answers_of_a_name_do_not_change (installed : string → bool)
    (reachable : Host → Prop) (calls : list Call) (h0 : Host) (M : string) :
  reachable h0 →
  (∀ name h, reachable h →
     reachable (snd (turbo_get name h))
     ∧ bool_decide (is_Some (fst (turbo_get name h))) = installed name) →
  (∀ name h, reachable h →
     reachable (snd (turbo_getEnforcing name h))
     ∧ completed (fst (turbo_getEnforcing name h)) = installed name) →
  answers_do_not_change M
    (trace (run_calls "android" turbo_get turbo_getEnforcing calls (fresh h0))).
Proof.
  intros H0 Hget Henf.
  assert (Hall : ∀ cs w,
            reachable (host w) →
            Forall (fun e => ev_found e = installed (ev_name e)) (trace w) →
            Forall (fun e => ev_found e = installed (ev_name e))
              (trace (run_calls "android" turbo_get turbo_getEnforcing cs w))).
  { induction cs as [|c cs IH]; intros w Hr Hw; simpl; [done |].
    destruct (Hget (prepare_module_name (call_name c)) (host w) Hr) as [Hr1 Hb].
    destruct c as [n|n]; simpl in *.
    - destruct (Hget n _ Hr1) as [Hr2 Hf]. apply IH.
      + by rewrite NativeModuleRegistry_get_android.
      + rewrite NativeModuleRegistry_get_android. simpl.
        apply Forall_app. split; [done |]. by repeat constructor.
    - destruct (Henf n _ Hr1) as [Hr2 Hf]. apply IH.
      + by rewrite NativeModuleRegistry_getEnforcing_android.
      + rewrite NativeModuleRegistry_getEnforcing_android. simpl.
        apply Forall_app. split; [done |]. by repeat constructor. }
  specialize (Hall calls (fresh h0) H0 (Forall_nil_2 _)).
  rewrite Forall_forall in Hall.
  assert (Hname : ∀ x, is_lookup_of M x = true → ev_name x = M).
  { intros x Hx. unfold is_lookup_of in Hx.
    apply andb_true_iff in Hx as [_ Hx]. by apply bool_decide_eq_true in Hx. }
  destruct (installed M) eqn:HM; [right | left]; apply count_zero; intros x Hx.
  - unfold is_failed_lookup_of. destruct (is_lookup_of M x) eqn:Hl; [| done].
    simpl. by rewrite (Hall x Hx), (Hname x Hl), HM.
  - unfold is_resolution_of. destruct (is_lookup_of M x) eqn:Hl; [| done].
    simpl. by rewrite (Hall x Hx), (Hname x Hl), HM.
Qed.

(** X19. On Android, whatever requests are made after process start, every
    lookup of a module [M] made by the registry, successful or not, comes
    right after the bootstrap lookup for [M] of the same request, and as
    many bootstrap lookups for [M] have been made by then as lookups of
    [M], plus this one: exactly one before the first lookup of [M]. On any
    other platform no bootstrap lookup is made. *)
Theorem bootstrap_before_every_lookup (OS : string) (calls : list Call) (h0 : Host) :
  let tr := trace (run_calls OS turbo_get turbo_getEnforcing calls (fresh h0)) in
  (OS = "android" →
   ∀ M pre e post,
     tr = pre ++ e :: post →
     is_lookup_of M e = true →
     count (is_bootstrap_for M) pre = S (count (is_lookup_of M) pre)
     ∧ ∃ pre' b, pre = pre' ++ [b] ∧ is_bootstrap_for M b = true)
  ∧ (OS ≠ "android" → ∀ M, count (is_bootstrap_for M) tr = 0).
Proof.
  cbv zeta. split.
  - intros ->. apply Paired_split. apply run_android_paired. constructor.
  - intros HOS M. by rewrite run_elsewhere_no_bootstrap.
Qed.

End BootstrapFacts.

(** ** The bootstrap handshake on concrete registries *)

Section BootstrapExamples.
Import JniBootstrap SimulatedRegistry.

Example android_first_request :
  trace (run_calls "android" static_get static_getEnforcing
           [CallGetEnforcing "Calculator"] (fresh ["Calculator"])) =
  [ mkEvent PrepareJNI_get "__crabyCalculator_JNI_prepare__" false;
    mkEvent Registry_getEnforcing "Calculator" true ].
Proof. reflexivity. Qed.

Example ios_first_request :
  trace (run_calls "ios" static_get static_getEnforcing
           [CallGet "Calculator"] (fresh ["Calculator"])) =
  [ mkEvent Registry_get "Calculator" true ].
Proof. reflexivity. Qed.

(** With a registry that misses a module at the first request and finds it
    at the second, the answers for [Calculator] change during the run. *)
Example android_second_request_succeeds :
  trace (run_calls "android" (lazy_get ["Calculator"]) (lazy_getEnforcing ["Calculator"])
           [CallGet "Calculator"; CallGet "Calculator"] (fresh [])) =
  [ mkEvent PrepareJNI_get "__crabyCalculator_JNI_prepare__" false;
    mkEvent Registry_get "Calculator" false;
    mkEvent PrepareJNI_get "__crabyCalculator_JNI_prepare__" false;
    mkEvent Registry_get "Calculator" true ].
Proof. reflexivity. Qed.

End BootstrapExamples.

Lemma bootstrap_before_every_lookup_witness :
  (let pre := [ JniBootstrap.mkEvent JniBootstrap.PrepareJNI_get
                  "__crabyCalculator_JNI_prepare__" false ] in
   JniBootstrap.count (JniBootstrap.is_bootstrap_for "Calculator") pre =
     S (JniBootstrap.count (JniBootstrap.is_lookup_of "Calculator") pre)
   ∧ ∃ pre' b, pre = pre' ++ [b] ∧ JniBootstrap.is_bootstrap_for "Calculator" b = true)
  ∧ JniBootstrap.count (JniBootstrap.is_bootstrap_for "Calculator")
      (JniBootstrap.trace
         (JniBootstrap.run_calls "ios" SimulatedRegistry.static_get
            SimulatedRegistry.static_getEnforcing
            [JniBootstrap.CallGet "Calculator"] (JniBootstrap.fresh ["Calculator"]))) = 0.
Proof.
  split.
  - refine (proj1 (bootstrap_before_every_lookup SimulatedRegistry.static_get
                     SimulatedRegistry.static_getEnforcing "android"
                     [JniBootstrap.CallGetEnforcing "Calculator"] ["Calculator"])
              eq_refl "Calculator" _
              (JniBootstrap.mkEvent JniBootstrap.Registry_getEnforcing "Calculator" true)
              [] _ _); reflexivity.
  - refine (proj2 (bootstrap_before_every_lookup SimulatedRegistry.static_get
                     SimulatedRegistry.static_getEnforcing "ios"
                     [JniBootstrap.CallGet "Calculator"] ["Calculator"]) _ "Calculator").
    discriminate.
Defined.

(** On Android, with a registry of installed modules, for every sequence
    of requests. *)
Lemma first_resolution_with_installed_modules (installed : list string)
    (calls : list JniBootstrap.Call) (M : string) :
  JniBootstrap.first_resolution_after_one_bootstrap JniBootstrap.is_bootstrap_for M
    (JniBootstrap.trace
       (JniBootstrap.run_calls "android" SimulatedRegistry.static_get
          SimulatedRegistry.static_getEnforcing calls (JniBootstrap.fresh installed))).
Proof.
  apply first_resolution_in_paired_trace.
  - apply run_android_paired. constructor.
  - apply (answers_of_a_name_do_not_change _ _ (fun name => bool_decide (name ∈ installed))
             (fun h => h = installed)); [done | |].
    + intros name h ->. unfold SimulatedRegistry.static_get. simpl. split; [done |].
      destruct (bool_decide (name ∈ installed)).
      * by apply bool_decide_eq_true.
      * apply bool_decide_eq_false. by intros [? ?].
    + intros name h ->. unfold SimulatedRegistry.static_getEnforcing. simpl.
      split; [done |]. by case_bool_decide.
Qed.

Lemma first_resolution_follows_one_bootstrap_witness :
  let boot := JniBootstrap.mkEvent JniBootstrap.PrepareJNI_get
                "__crabyCalculator_JNI_prepare__" false in
  JniBootstrap.count (JniBootstrap.is_bootstrap_for "Calculator")
    [ JniBootstrap.mkEvent JniBootstrap.PrepareJNI_get
        "__crabyCrabyTest_JNI_prepare__" false;
      JniBootstrap.mkEvent JniBootstrap.Registry_get "CrabyTest" false;
      boot ] = 1.
Proof.
  cbv zeta.
  refine (proj1 (first_resolution_follows_one_bootstrap SimulatedRegistry.static_get
                   SimulatedRegistry.static_getEnforcing
                   [JniBootstrap.CallGet "CrabyTest";
                    JniBootstrap.CallGetEnforcing "Calculator";
                    JniBootstrap.CallGet "Calculator"]
                   ["Calculator"] "Calculator" _)
            _ (JniBootstrap.mkEvent JniBootstrap.Registry_getEnforcing "Calculator" true)
            [ JniBootstrap.mkEvent JniBootstrap.PrepareJNI_get
                "__crabyCalculator_JNI_prepare__" false;
              JniBootstrap.mkEvent JniBootstrap.Registry_get "Calculator" true ]
            _ _ _).
  - right. reflexivity.
  - reflexivity.
  - reflexivity.
  - reflexivity.
Defined.

(** ** The Android packages *)

Section PackageFacts.
Import JniBootstrap AndroidPackage.

Lemma CrabyTest_names (n : string) :
  n ∈ CrabyTest.JNI_PREPARE_MODULE_NAME
  ↔ n = prepare_module_name "Calculator" ∨ n = prepare_module_name "CrabyTest".
Proof.
  unfold CrabyTest.JNI_PREPARE_MODULE_NAME.
  rewrite !elem_of_cons, elem_of_nil. change (prepare_module_name "Calculator")
    with "__crabyCalculator_JNI_prepare__".
  change (prepare_module_name "CrabyTest") with "__crabyCrabyTest_JNI_prepare__".
  tauto.
Qed.

Lemma CrabyTest_moduleInfos_lookup (n : string) :
  CrabyTest.getReactModuleInfos !! n =
    if bool_decide (n ∈ CrabyTest.JNI_PREPARE_MODULE_NAME)
    then Some (bootstrapInfo n) else None.
Proof.
  unfold CrabyTest.getReactModuleInfos. simpl.
  rewrite !lookup_insert, lookup_empty.
  case_bool_decide as Hin; rewrite CrabyTest_names in Hin;
    repeat case_decide; subst; try done.
  - destruct Hin as [Hin | Hin]; by rewrite Hin in *.
  - exfalso. apply Hin. by right.
  - exfalso. apply Hin. by left.
Qed.

Lemma Template_moduleInfos_lookup (n : string) :
  Template.getReactModuleInfos !! n =
    if bool_decide (n = Template.JNI_PREPARE_MODULE_NAME)
    then Some (bootstrapInfo n) else None.
Proof.
  unfold Template.getReactModuleInfos.
  rewrite lookup_insert, lookup_empty.
  case_decide; case_bool_decide; by subst.
Qed.

(** C2. The name the JS side looks up on behalf of a module [M] is
    [__craby<M>_JNI_prepare__]. The generated package, [CrabyTestPackage],
    registers its bootstrap entries under exactly the names derived in this
    way from its modules [Calculator] and [CrabyTest]: the lookup made for
    either module meets a registered entry, filed under that very name, and
    the package registers no other name. The scaffold, before any module is
    generated, has the entry derived from the module name [Unknown]. *)
Theorem bootstrap_name_registration :
  (∀ (Host Mod Exn : Type) (turbo_get : string → Host → option Mod * Host)
     (M : string) (w : World Host),
     ∃ found,
       trace (snd (prepareJNI (Exn := Exn) "android" turbo_get M w)) =
       trace w ++ [mkEvent PrepareJNI_get ("__craby" +:+ M +:+ "_JNI_prepare__") found])
  ∧ (∀ M : string, prepare_module_name M = "__craby" +:+ M +:+ "_JNI_prepare__")
  ∧ (∀ n : string,
       CrabyTest.getReactModuleInfos !! n =
         if bool_decide (n = prepare_module_name "Calculator"
                         ∨ n = prepare_module_name "CrabyTest")
         then Some (bootstrapInfo n) else None)
  ∧ registers_bootstrap_of CrabyTest.getReactModuleInfos "Calculator"
  ∧ registers_bootstrap_of CrabyTest.getReactModuleInfos "CrabyTest"
  ∧ registers_bootstrap_of Template.getReactModuleInfos "Unknown".
Proof.
  assert (Hlookup : ∀ n : string,
            CrabyTest.getReactModuleInfos !! n =
              if bool_decide (n = prepare_module_name "Calculator"
                              ∨ n = prepare_module_name "CrabyTest")
              then Some (bootstrapInfo n) else None).
  { intros n. rewrite CrabyTest_moduleInfos_lookup.
    apply (f_equal (fun b : bool => if b then Some (bootstrapInfo n) else None)).
    apply bool_decide_ext, CrabyTest_names. }
  split; [| split; [| split; [| split; [| split]]]].
  - intros. rewrite prepareJNI_android. simpl. by eexists.
  - done.
  - exact Hlookup.
  - unfold registers_bootstrap_of. rewrite Hlookup.
    rewrite bool_decide_true by (by left). by eexists.
  - unfold registers_bootstrap_of. rewrite Hlookup.
    rewrite bool_decide_true by (by right). by eexists.
  - unfold registers_bootstrap_of. rewrite Template_moduleInfos_lookup.
    rewrite bool_decide_true by done. by eexists.
Qed.

(** C3. When the hook of a package is invoked for a synthetic bootstrap
    name the package registers, it forwards [filesDir.absolutePath] of the
    context to the binding layer through [nativeSetDataPath], once, and
    returns [null]; so do the hook of the generated [CrabyTestPackage] and
    the hook of the scaffold. The generated package forwards the path
    precisely in response to these names: for any other name its hook calls
    nothing, and returns [null] as well. *)
Theorem getModule_forwards_data_path (NativeModule : Type)
    (name : string) (reactContext : ReactApplicationContext) :
  CrabyTest.getModule (NativeModule := NativeModule) name reactContext =
    (None,
     if bool_decide (is_Some (CrabyTest.getReactModuleInfos !! name))
     then [nativeSetDataPath (filesDir_absolutePath reactContext)] else [])
  ∧ forwards_precisely_on_bootstrap
      (CrabyTest.getModule (NativeModule := NativeModule)) CrabyTest.getReactModuleInfos
  ∧ (is_Some (Template.getReactModuleInfos !! name) →
     Template.getModule (NativeModule := NativeModule) name reactContext =
       (None, [nativeSetDataPath (filesDir_absolutePath reactContext)])).
Proof.
  assert (Hcase : ∀ n, bool_decide (is_Some (CrabyTest.getReactModuleInfos !! n)) =
                        bool_decide (n ∈ CrabyTest.JNI_PREPARE_MODULE_NAME)).
  { intros n. rewrite CrabyTest_moduleInfos_lookup. apply bool_decide_ext.
    case_bool_decide; split; try done; by intros [? ?]. }
  split; [| split].
  - rewrite Hcase. unfold CrabyTest.getModule. by case_bool_decide.
  - intros n ctx. pose proof (Hcase n) as Hn.
    unfold CrabyTest.getModule.
    destruct (bool_decide (n ∈ CrabyTest.JNI_PREPARE_MODULE_NAME)) eqn:E; simpl.
    + apply bool_decide_eq_true in Hn. split; [| done].
      split; [done |]. intros _. apply elem_of_cons. by left.
    + apply bool_decide_eq_false in Hn. split; [| done].
      split; [| done]. intros Hx. by apply elem_of_nil in Hx.
  - done.
Qed.

End PackageFacts.

Lemma getModule_forwards_data_path_witness :
  AndroidPackage.Template.getModule (NativeModule := unit) "__crabyUnknown_JNI_prepare__"
    (AndroidPackage.mkContext "/data/user/0/com.example/files")
  = (None, [AndroidPackage.nativeSetDataPath "/data/user/0/com.example/files"])
  ∧ AndroidPackage.CrabyTest.getModule (NativeModule := unit)
      "__crabyCalculator_JNI_prepare__"
      (AndroidPackage.mkContext "/data/user/0/com.crabytest/files")
    = (None, [AndroidPackage.nativeSetDataPath "/data/user/0/com.crabytest/files"]).
Proof.
  split.
  - refine (proj2 (proj2 (getModule_forwards_data_path unit "__crabyUnknown_JNI_prepare__"
                            (AndroidPackage.mkContext "/data/user/0/com.example/files"))) _).
    rewrite Template_moduleInfos_lookup. by eexists.
  - rewrite (proj1 (getModule_forwards_data_path unit "__crabyCalculator_JNI_prepare__"
                      (AndroidPackage.mkContext "/data/user/0/com.crabytest/files"))).
    rewrite CrabyTest_moduleInfos_lookup. reflexivity.
Defined.

(** ** The command line entry point *)

Section CliFacts.
Import Cli.

Lemma startsWith_dash_spec (o : string) :
  startsWith_dash o = true ↔ ∃ rest, o = String "-" rest.
Proof.
  unfold startsWith_dash. destruct o as [|c o]; cbn -[ascii_dec].
  - split; [done | by intros [? ?]].
  - destruct (ascii_dec "-" c) as [<-|Hc].
    + split; [by eexists | by destruct o].
    + split; [done | intros [rest [= Hc' _]]; by subst].
Qed.

Lemma isCodegenCommand_spec (exe script : string) (options : list string) :
  isCodegenCommand (exe :: script :: options) = true
  ↔ Forall (fun o => ∃ rest, o = String "-" rest) options.
Proof.
  unfold isCodegenCommand. simpl. rewrite forallb_forall, Forall_forall.
  split; intros H o Ho.
  - apply startsWith_dash_spec, H. by apply list_elem_of_In.
  - apply startsWith_dash_spec, H. by apply list_elem_of_In.
Qed.

(** C9. When every argument after the executable and the script name starts
    with [-] (in particular when there is none), [run] hands commander the
    vector [exe, script, "codegen", ...arguments]: the codegen subcommand,
    with the arguments as they were given. *)
Theorem options_only_dispatches_codegen (exe script : string) (options : list string) :
  Forall (fun o => ∃ rest, o = String "-" rest) options →
  run (exe :: script :: options) =
    [Some exe; Some script; Some "codegen"] ++ (Some <$> options).
Proof.
  intros H. unfold run.
  by rewrite (proj2 (isCodegenCommand_spec exe script options) H).
Qed.

End CliFacts.

Lemma options_only_dispatches_codegen_witness :
  Cli.run ["node"; "crabygen"; "--no-overwrite"] =
    [Some "node"; Some "crabygen"; Some "codegen"; Some "--no-overwrite"]
  ∧ Cli.run ["node"; "crabygen"] =
    [Some "node"; Some "crabygen"; Some "codegen"].
Proof.
  split.
  - apply (options_only_dispatches_codegen "node" "crabygen" ["--no-overwrite"]).
    repeat constructor. by eexists.
  - apply (options_only_dispatches_codegen "node" "crabygen" []). constructor.
Defined.

Section ErrorHandlerFacts.
Import Cli.
Variable codegen : Action CodegenOptions.
Variable cwd : string.

Lemma withErrorHandler_outcome {T : Type} (action : Action T) (arg : T) (p : Process) :
  let r := withErrorHandler action arg p in
  match action arg p with
  | (Throw reason, p') =>
      printed r =
        printed p' ++
        [(LevelError,
          match reason with
          | ErrorInstance message => message
          | OtherValue _ => "Unknown error"
          end)]
      ∧ exited r = Some 1%Z
      ∧ exit_code r ≠ 0%Z
  | (Return _, p') =>
      r = p' ∧ exit_code r = default 0%Z (exited p')
  end.
Proof.
  cbv zeta. unfold withErrorHandler.
  destruct (action arg p) as [[[]|reason] p']; [done |].
  by destruct reason.
Qed.

(** C5. Whatever a command action throws, the wrapper built by
    [withErrorHandler] prints one line at error level (the message of the
    [Error], or [Unknown error] for any other thrown value) after what the
    action had printed, and ends the process with exit code 1. When the
    action returns, the wrapper prints nothing and does not call
    [process.exit]: the exit code is 0 unless the action itself asked for
    another one. [runCodegen] is such a wrapper around [codegen]. *)
Theorem thrown_errors_exit_nonzero (T : Type) (action : Action T) (arg : T)
    (overwrite : bool) (p : Process) :
  (let r := withErrorHandler action arg p in
   match action arg p with
   | (Throw reason, p') =>
       printed r =
         printed p' ++
         [(LevelError,
           match reason with
           | ErrorInstance message => message
           | OtherValue _ => "Unknown error"
           end)]
       ∧ exited r = Some 1%Z
       ∧ exit_code r ≠ 0%Z
   | (Return _, p') =>
       r = p' ∧ exit_code r = default 0%Z (exited p')
   end)
  ∧
  (let r := runCodegen codegen cwd overwrite p in
   match codegen (mkCodegenOptions cwd overwrite) p with
   | (Throw reason, p') =>
       printed r =
         printed p' ++
         [(LevelError,
           match reason with
           | ErrorInstance message => message
           | OtherValue _ => "Unknown error"
           end)]
       ∧ exited r = Some 1%Z
       ∧ exit_code r ≠ 0%Z
   | (Return _, p') =>
       r = p' ∧ exit_code r = default 0%Z (exited p')
   end).
Proof.
  split.
  - apply withErrorHandler_outcome.
  - apply (withErrorHandler_outcome
             (fun overwrite => codegen (mkCodegenOptions cwd overwrite))).
Qed.

End ErrorHandlerFacts.

Section ErrorHandlerExamples.
Import Cli.

(** A [codegen] that rejects the project with a [SpecError]-like [Error], and
    one that succeeds after printing a line. *)
Example failing_codegen_exits_1 :
  runCodegen (fun _ p => (Throw (ErrorInstance "module handle not found"), p))
             "/work/project" true start
  = mkProcess [(LevelError, "module handle not found")] (Some 1%Z).
Proof. reflexivity. Qed.

Example succeeding_codegen_exits_0 :
  exit_code
    (runCodegen (fun _ p => (Return tt, mkProcess (printed p ++ [(LevelInfo, "done")]) (exited p)))
                "/work/project" true start) = 0%Z.
Proof. reflexivity. Qed.

End ErrorHandlerExamples.

(** ** The resolver cache *)

Section ResolverFacts.
Import MetroResolver.
Variable path_join : string → string → string.
Variable path_dirname : string → string.
Variable oxc_sync : ResolverFactoryOptions → string → string → option string.

#[local] Abbreviation createResolverImpl := (createResolverImpl path_join).
#[local] Abbreviation call_resolver := (call_resolver path_dirname oxc_sync).
#[local] Abbreviation resolve := (resolve path_join path_dirname oxc_sync).
#[local] Abbreviation resolve_call := (resolve_call path_join path_dirname oxc_sync).
#[local] Abbreviation run_calls := (run_calls path_join path_dirname oxc_sync).

Lemma resolve_miss (options : CreateResolverOptions)
    (context : CustomResolutionContext) (request : string) (platform : option string)
    (resolvers : gmap (option string) Resolver) :
  resolvers !! platform = None →
  resolve options context request platform resolvers =
    (call_resolver (createResolverImpl options context platform (rootPath options))
       context request,
     <[platform := createResolverImpl options context platform (rootPath options)]>
       resolvers).
Proof. intros H. unfold MetroResolver.resolve. by rewrite H. Qed.

Lemma resolve_hit (options : CreateResolverOptions)
    (context : CustomResolutionContext) (request : string) (platform : option string)
    (resolvers : gmap (option string) Resolver) (r : Resolver) :
  resolvers !! platform = Some r →
  resolve options context request platform resolvers =
    (call_resolver r context request, resolvers).
Proof. intros H. unfold MetroResolver.resolve. by rewrite H. Qed.

Lemma resolve_keeps_entries (options : CreateResolverOptions)
    (context : CustomResolutionContext) (request : string) (platform : option string)
    (resolvers : gmap (option string) Resolver) :
  resolvers ⊆ snd (resolve options context request platform resolvers).
Proof.
  destruct (resolvers !! platform) as [r|] eqn:E.
  - by rewrite (resolve_hit _ _ _ _ _ r).
  - rewrite resolve_miss by done. simpl. by apply insert_subseteq.
Qed.

Lemma run_keeps_entries (calls : list ResolveCall)
    (resolvers : gmap (option string) Resolver) :
  resolvers ⊆ run_calls calls resolvers.
Proof.
  revert resolvers. induction calls as [|c cs IH]; intros resolvers; simpl; [done |].
  etrans; [| apply IH]. apply resolve_keeps_entries.
Qed.

(** C6 (as the code has it). The state that calls share is the [resolvers]
    map, empty when the module is loaded and keyed by the platform alone (a
    string or null). A call for a platform without an entry builds the
    resolver from its own context and options, stores it under the platform
    and uses it; a call for a platform with an entry leaves the map as it is
    and uses the stored resolver; through any sequence of calls every entry
    stays in the map, unchanged. *)
Theorem resolver_cache_is_lazy_and_monotone (options : CreateResolverOptions)
    (context : CustomResolutionContext) (request : string) (platform : option string)
    (resolvers : gmap (option string) Resolver) (calls : list ResolveCall) :
  resolvers_at_load = ∅
  ∧ match resolvers !! platform with
    | None =>
        resolve options context request platform resolvers =
          (call_resolver (createResolverImpl options context platform (rootPath options))
             context request,
           <[platform := createResolverImpl options context platform (rootPath options)]>
             resolvers)
    | Some r =>
        resolve options context request platform resolvers =
          (call_resolver r context request, resolvers)
    end
  ∧ resolvers ⊆ run_calls calls resolvers.
Proof.
  split; [done |]. split; [| apply run_keeps_entries].
  destruct (resolvers !! platform) as [r|] eqn:E.
  - by apply resolve_hit.
  - by apply resolve_miss.
Qed.

Lemma call_resolver_origin (r : Resolver) (exts exts' : list string)
    (pref pref' : option bool) (origin request : string) :
  call_resolver r (mkContext exts origin pref) request =
  call_resolver r (mkContext exts' origin pref') request.
Proof. reflexivity. Qed.

(** C10. Once a call has put a resolver in the map for a platform that had
    none, that resolver is the one built from this first call's context (and
    the options of the resolver it was called through); it is still the
    entry of the platform after any further calls, and every later call for
    the platform is answered by it: two such calls with the same request and
    the same origin module path return the same result, whatever their
    [sourceExts] and [preferNativePlatform] (and whichever options their
    resolver was created with). *)
Theorem later_calls_ignore_context_fields
    (options0 : CreateResolverOptions) (context0 : CustomResolutionContext)
    (request0 : string) (platform : option string)
    (resolvers0 : gmap (option string) Resolver) (calls : list ResolveCall) :
  resolvers0 !! platform = None →
  let first := createResolverImpl options0 context0 platform (rootPath options0) in
  let resolvers1 := snd (resolve options0 context0 request0 platform resolvers0) in
  let resolversN := run_calls calls resolvers1 in
  resolvers1 !! platform = Some first
  ∧ resolversN !! platform = Some first
  ∧ ∀ (options options' : CreateResolverOptions) (exts exts' : list string)
      (pref pref' : option bool) (origin request : string),
      fst (resolve options (mkContext exts origin pref) request platform resolversN) =
        call_resolver first (mkContext exts origin pref) request
      ∧ fst (resolve options (mkContext exts origin pref) request platform resolversN) =
        fst (resolve options' (mkContext exts' origin pref') request platform resolversN).
Proof.
  intros Hmiss. cbv zeta.
  assert (H1 : snd (resolve options0 context0 request0 platform resolvers0) !! platform
               = Some (createResolverImpl options0 context0 platform (rootPath options0))).
  { rewrite resolve_miss by done. simpl. apply lookup_insert_eq. }
  assert (HN : run_calls calls (snd (resolve options0 context0 request0 platform resolvers0))
                 !! platform
               = Some (createResolverImpl options0 context0 platform (rootPath options0))).
  { eapply lookup_weaken; [exact H1 | apply run_keeps_entries]. }
  split; [done |]. split; [done |].
  intros. by rewrite !(resolve_hit _ _ _ _ _ _ HN).
Qed.

End ResolverFacts.

Section ResolverExamples.
Import MetroResolver.

#[local] Abbreviation files := ["/app/src/helper.ts"].
#[local] Abbreviation resolve_in_files :=
  (resolve SimulatedFiles.join SimulatedFiles.dirname (SimulatedFiles.sync files)).

Example fresh_typescript_call_resolves :
  fst (resolve_in_files (mkOptions "/app" None)
         (mkContext ["ts"] "/app/src/index.ts" None) "helper" (Some "ios")
         resolvers_at_load)
  = Resolved (sourceFile "/app/src/helper.ts").
Proof. vm_compute. reflexivity. Qed.

(** The same call, made after a call for the same platform whose context
    listed [js] only, is answered by the resolver of that earlier call; the
    error message names the origin module of the earlier call. *)
Example stale_extensions_after_first_call :
  let resolvers1 :=
    snd (resolve_in_files (mkOptions "/app" None)
           (mkContext ["js"] "/app/src/main.js" None) "helper" (Some "ios")
           resolvers_at_load) in
  fst (resolve_in_files (mkOptions "/app" None)
         (mkContext ["ts"] "/app/src/index.ts" None) "helper" (Some "ios") resolvers1)
  = Failed "Failed to resolve helper from /app/src/main.js".
Proof. vm_compute. reflexivity. Qed.

End ResolverExamples.

Lemma later_calls_ignore_context_fields_witness :
  let resolve :=
    MetroResolver.resolve SimulatedFiles.join SimulatedFiles.dirname
      (SimulatedFiles.sync ["/app/src/helper.ts"]) in
  let resolvers1 :=
    snd (resolve (MetroResolver.mkOptions "/app" None)
           (MetroResolver.mkContext ["js"] "/app/src/main.js" None) "helper" (Some "ios")
           MetroResolver.resolvers_at_load) in
  fst (resolve (MetroResolver.mkOptions "/app" None)
         (MetroResolver.mkContext ["ts"] "/app/src/index.ts" None) "helper" (Some "ios")
         resolvers1)
  = fst (resolve (MetroResolver.mkOptions "/other" (Some ["react"]))
           (MetroResolver.mkContext ["js"; "jsx"] "/app/src/index.ts" (Some true)) "helper"
           (Some "ios") resolvers1).
Proof.
  cbv zeta.
  refine (proj2
            (proj2 (proj2
               (later_calls_ignore_context_fields SimulatedFiles.join SimulatedFiles.dirname
                  (SimulatedFiles.sync ["/app/src/helper.ts"])
                  (MetroResolver.mkOptions "/app" None)
                  (MetroResolver.mkContext ["js"] "/app/src/main.js" None) "helper"
                  (Some "ios") MetroResolver.resolvers_at_load [] _))
               (MetroResolver.mkOptions "/app" None)
               (MetroResolver.mkOptions "/other" (Some ["react"]))
               ["ts"] ["js"; "jsx"] None (Some true) "/app/src/index.ts" "helper")).
  reflexivity.
Defined.

(** C6, as the specification words it, has the cache keyed by the pair of a
    platform and a resolver function, with an entry made at the first call
    for each key. The second call below is for the same platform as the
    first and for another resolver function (its context lists other
    extensions), the third for the same platform through a resolver created
    with other options: neither gets an entry of its own, the map stays as
    the first call left it, with the one entry of the platform. *)
Lemma resolver_cache_key_is_platform_alone :
  let options := MetroResolver.mkOptions "/app" None in
  let first :=
    MetroResolver.mkCall options
      (MetroResolver.mkContext ["js"] "/app/src/main.js" None) "helper" (Some "ios") in
  let second :=
    MetroResolver.mkCall options
      (MetroResolver.mkContext ["ts"] "/app/src/index.ts" None) "helper" (Some "ios") in
  let third :=
    MetroResolver.mkCall (MetroResolver.mkOptions "/other" (Some ["react"]))
      (MetroResolver.mkContext ["js"] "/app/src/main.js" None) "helper" (Some "ios") in
  let call :=
    MetroResolver.resolve_call SimulatedFiles.join SimulatedFiles.dirname
      (SimulatedFiles.sync ["/app/src/helper.ts"]) in
  let served :=
    MetroResolver.served_by_own_resolver SimulatedFiles.join SimulatedFiles.dirname
      (SimulatedFiles.sync ["/app/src/helper.ts"]) in
  let resolvers1 := snd (call first MetroResolver.resolvers_at_load) in
  served first MetroResolver.resolvers_at_load
  ∧ ¬ served second resolvers1
  ∧ snd (call second resolvers1) = resolvers1
  ∧ ¬ served third resolvers1
  ∧ snd (call third resolvers1) = resolvers1.
Proof.
  cbv zeta. unfold MetroResolver.served_by_own_resolver, MetroResolver.resolve_call.
  simpl MetroResolver.call_platform. simpl MetroResolver.call_options.
  simpl MetroResolver.call_context. simpl MetroResolver.call_request.
  rewrite (resolve_miss _ _ _ _ _ _ _ MetroResolver.resolvers_at_load) by done.
  simpl snd.
  split; [apply lookup_insert_eq |].
  rewrite !(resolve_hit _ _ _ _ _ _ _ _ _ (lookup_insert_eq _ _ _)).
  simpl snd. rewrite lookup_insert_eq.
  repeat split; try done; intros [= H].
Qed.

(** ** Build targets *)

Section BuildTargetFacts.
Import BuildTargets.

(** C7. The default target set has exactly two platform families; the iOS
    family has exactly the two triples [aarch64-apple-ios] and
    [aarch64-apple-ios-sim], the Android family exactly the four triples
    [aarch64-linux-android], [armv7-linux-androideabi], [i686-linux-android]
    and [x86_64-linux-android]. *)
Theorem default_targets_two_families :
  families = [iOS; Android]
  ∧ NoDup families
  ∧ (∀ f : PlatformFamily, f ∈ families)
  ∧ length (triples_of iOS) = 2
  ∧ length (triples_of Android) = 4
  ∧ NoDup (triples_of iOS) ∧ NoDup (triples_of Android)
  ∧ (∀ t : string,
       t ∈ triples_of iOS ↔ t = "aarch64-apple-ios" ∨ t = "aarch64-apple-ios-sim")
  ∧ (∀ t : string,
       t ∈ triples_of Android
       ↔ t = "aarch64-linux-android" ∨ t = "armv7-linux-androideabi"
         ∨ t = "i686-linux-android" ∨ t = "x86_64-linux-android").
Proof.
  assert (Hi : triples_of iOS = ["aarch64-apple-ios"; "aarch64-apple-ios-sim"])
    by reflexivity.
  assert (Ha : triples_of Android =
               ["aarch64-linux-android"; "armv7-linux-androideabi";
                "i686-linux-android"; "x86_64-linux-android"]) by reflexivity.
  rewrite Hi, Ha.
  split; [reflexivity |].
  split; [apply (bool_decide_unpack _); by vm_compute |].
  split; [intros []; apply (bool_decide_unpack _); by vm_compute |].
  split; [reflexivity |]. split; [reflexivity |].
  split; [apply (bool_decide_unpack _); by vm_compute |].
  split; [apply (bool_decide_unpack _); by vm_compute |].
  split; intros t; rewrite !elem_of_cons, elem_of_nil; tauto.
Qed.

End BuildTargetFacts.

(** ** Generated identifiers *)

Section NamingFacts.
Import Naming.

Lemma lower_char_not_upper (c : ascii) : is_upper (lower_char c) = false.
Proof.
  unfold lower_char. destruct (is_upper c) eqn:E; [| done].
  unfold is_upper, in_range in *.
  apply andb_true_iff in E as [E1 E2].
  apply Nat.leb_le in E1, E2.
  rewrite nat_ascii_embedding by lia.
  apply andb_false_iff. right. apply Nat.leb_gt. lia.
Qed.

Lemma all_chars_app (p : ascii → bool) (a b : string) :
  all_chars p (a +:+ b) = all_chars p a && all_chars p b.
Proof. induction a as [|c a IH]; simpl; [done | by rewrite IH, andb_assoc]. Qed.

Lemma lower_word_no_upper (w : string) :
  all_chars (fun c => negb (is_upper c)) (lower_word w) = true.
Proof.
  induction w as [|c w IH]; simpl; [done |].
  by rewrite lower_char_not_upper, IH.
Qed.

Lemma concat_no_upper (ws : list string) :
  Forall (fun w => all_chars (fun c => negb (is_upper c)) w = true) ws →
  all_chars (fun c => negb (is_upper c)) (String.concat "_" ws) = true.
Proof.
  induction 1 as [|w ws Hw Hws IH]; [done |].
  destruct ws as [|w' ws]; [done |].
  change (String.concat "_" (w :: w' :: ws))
    with (w +:+ "_" +:+ String.concat "_" (w' :: ws)).
  by rewrite !all_chars_app, Hw, IH.
Qed.

(** Whatever the identifier, [toSnake] returns no upper-case letter. *)
Lemma toSnake_no_upper (identifier : string) :
  all_chars (fun c => negb (is_upper c)) (toSnake identifier) = true.
Proof.
  unfold toSnake. apply concat_no_upper.
  induction (segments identifier) as [|w ws IH]; constructor; [| done].
  apply lower_word_no_upper.
Qed.

(** The documented conversions of docs/guide/module-definition.md. *)
Example documented_conversions :
  toSnake "camelCase" = "camel_case"
  ∧ toSnake "myMethod" = "my_method"
  ∧ toSnake "userName" = "user_name"
  ∧ toSnake "isActive" = "is_active".
Proof. repeat split; reflexivity. Qed.

(** C8. For the method [getUserName(userId: number): string] the generator
    emits the method identifier [get_user_name] and the parameter identifier
    [user_id]: the names are split at their case boundaries ([get], [User],
    [Name]; [user], [Id]), lower-cased and joined with underscores; the
    return type is the text-string type of the target. *)
Theorem getUserName_scenario (declared : string → bool) :
  segments "getUserName" = ["get"; "User"; "Name"]
  ∧ segments "userId" = ["user"; "Id"]
  ∧ toSnake "getUserName" = "get_user_name"
  ∧ toSnake "userId" = "user_id"
  ∧ generate_method declared
      (mkMethod "getUserName" [("userId", Primitive KNumber)] (Primitive KString))
    = inl (mkTraitMethod "get_user_name" [("user_id", TNumber)] TText).
Proof. repeat split; reflexivity. Qed.

End NamingFacts.

(** * Further properties of the code *)

(** ** The registry of craby-modules *)

Section RegistryFacts.
Import JniBootstrap.
Context {Host Mod Exn : Type}.
Variable turbo_get : string → Host → option Mod * Host.
Variable turbo_getEnforcing : string → Host → Completion Exn Mod * Host.

(** X1. On a platform other than Android the registry adds nothing to
    [TurboModuleRegistry]: [get] and [getEnforcing] return what the host's
    functions return, leave the host in the same state and make that one
    lookup only. *)
Theorem registry_is_transparent_off_android (OS moduleName : string) (w : World Host) :
  OS ≠ "android" →
  NativeModuleRegistry_get (Exn := Exn) OS turbo_get moduleName w =
    TurboModuleRegistry_get turbo_get Registry_get moduleName w
  ∧ NativeModuleRegistry_getEnforcing (Mod := Mod) OS turbo_get turbo_getEnforcing moduleName w =
    TurboModuleRegistry_getEnforcing turbo_getEnforcing Registry_getEnforcing moduleName w.
Proof.
  intros HOS. split.
  - unfold NativeModuleRegistry_get, bind. by rewrite prepareJNI_elsewhere.
  - unfold NativeModuleRegistry_getEnforcing, bind. by rewrite prepareJNI_elsewhere.
Qed.

(** X2. The bootstrap lookup is made again at every request, there is no
    memo: a run of n requests makes 2n host lookups on Android and n on any
    other platform. *)
Theorem host_lookups_per_request (OS : string) (calls : list Call) (w : World Host) :
  length (trace (run_calls OS turbo_get turbo_getEnforcing calls w)) =
    length (trace w) + (if bool_decide (OS = "android") then 2 else 1) * length calls.
Proof.
  revert w. induction calls as [|c cs IH]; intros w; simpl; [lia |].
  rewrite IH. case_bool_decide as HOS.
  - subst OS. destruct (exec_android turbo_get turbo_getEnforcing c w)
      as (b & site & r & _ & ->).
    rewrite length_app. simpl. lia.
  - destruct (exec_elsewhere turbo_get turbo_getEnforcing OS c w HOS)
      as (site & r & _ & ->).
    rewrite length_app. simpl. lia.
Qed.

End RegistryFacts.

(** X3. Bootstrap names identify modules: two modules have the same
    bootstrap name only if they have the same name, and the bootstrap name
    of a module is never the name of that module (it is 21 characters
    longer). *)
Theorem bootstrap_names_identify_modules (a b : string) :
  (JniBootstrap.prepare_module_name a = JniBootstrap.prepare_module_name b ↔ a = b)
  ∧ JniBootstrap.prepare_module_name a ≠ a
  ∧ String.length (JniBootstrap.prepare_module_name a) = String.length a + 21.
Proof.
  assert (Hlen : ∀ x, String.length (JniBootstrap.prepare_module_name x)
                      = String.length x + 21).
  { intros x. unfold JniBootstrap.prepare_module_name.
    rewrite !string_length_app. simpl. lia. }
  split; [| split].
  - split; [apply prepare_module_name_inj | by intros ->].
  - intros H. apply (f_equal String.length) in H. rewrite Hlen in H. lia.
  - apply Hlen.
Qed.

Lemma registry_is_transparent_off_android_witness :
  JniBootstrap.NativeModuleRegistry_get (Exn := string) "ios"
    SimulatedRegistry.static_get "Calculator" (JniBootstrap.fresh ["Calculator"])
  = (JniBootstrap.Return (Some "Calculator"),
     JniBootstrap.mkWorld ["Calculator"]
       [JniBootstrap.mkEvent JniBootstrap.Registry_get "Calculator" true]).
Proof.
  rewrite (proj1 (registry_is_transparent_off_android SimulatedRegistry.static_get
                    SimulatedRegistry.static_getEnforcing "ios" "Calculator"
                    (JniBootstrap.fresh ["Calculator"]) ltac:(discriminate))).
  reflexivity.
Defined.

(** ** The package tables *)

(** X4. Every entry a package registers is filed under its own name: it is
    a TurboModule whose name and class name are the key, not a C++ module,
    not eagerly initialised and not allowed to override another module. *)
Theorem registered_entries_are_lazy_turbo_modules
    (key : string) (info : AndroidPackage.ReactModuleInfo) :
  AndroidPackage.Template.getReactModuleInfos !! key = Some info
  ∨ AndroidPackage.CrabyTest.getReactModuleInfos !! key = Some info →
  AndroidPackage.info_name info = key
  ∧ AndroidPackage.info_className info = key
  ∧ AndroidPackage.isTurboModule info = true
  ∧ AndroidPackage.isCxxModule info = false
  ∧ AndroidPackage.needsEagerInit info = false
  ∧ AndroidPackage.canOverrideExistingModule info = false.
Proof.
  intros [H | H].
  - rewrite Template_moduleInfos_lookup in H. by case_bool_decide; simplify_eq.
  - rewrite CrabyTest_moduleInfos_lookup in H. by case_bool_decide; simplify_eq.
Qed.

Lemma registered_entries_are_lazy_turbo_modules_witness :
  AndroidPackage.isTurboModule
    (AndroidPackage.bootstrapInfo "__crabyCalculator_JNI_prepare__") = true.
Proof.
  refine (proj1 (proj2 (proj2
    (registered_entries_are_lazy_turbo_modules "__crabyCalculator_JNI_prepare__"
       (AndroidPackage.bootstrapInfo "__crabyCalculator_JNI_prepare__") _)))).
  right. rewrite CrabyTest_moduleInfos_lookup. reflexivity.
Defined.

(** ** The argument vector of the CLI *)

Section ArgvFacts.
Import Cli.

Lemma isCodegenCommand_false (exe script : string) (options : list string) :
  Exists (fun o => ¬ ∃ rest, o = String "-" rest) options →
  isCodegenCommand (exe :: script :: options) = false.
Proof.
  intros H. apply not_true_is_false. rewrite isCodegenCommand_spec.
  intros HF. apply Exists_exists in H as (o & Ho & Hn).
  apply Hn. by apply (proj1 (Forall_forall _ _) HF).
Qed.

Lemma other_arguments_unchanged_aux (exe script : string) (options : list string) :
  Exists (fun o => ¬ ∃ rest, o = String "-" rest) options →
  run (exe :: script :: options) = Some <$> (exe :: script :: options).
Proof. intros H. unfold run. by rewrite isCodegenCommand_false. Qed.

(** X5. As soon as one argument after the script name does not start with
    [-] (a subcommand such as [build], or the value of an option), [run]
    hands [process.argv] to commander as it is. *)
Theorem other_arguments_are_passed_unchanged (exe script : string) (options : list string) :
  Exists (fun o => ¬ ∃ rest, o = String "-" rest) options →
  run (exe :: script :: options) = Some <$> (exe :: script :: options).
Proof. apply other_arguments_unchanged_aux. Qed.

(** X6. Leaving the subcommand out and writing [codegen] give commander the
    same vector, when the remaining arguments all start with [-]. *)
Theorem default_subcommand_is_codegen (exe script : string) (options : list string) :
  Forall (fun o => ∃ rest, o = String "-" rest) options →
  run (exe :: script :: options) = run (exe :: script :: "codegen" :: options).
Proof.
  intros H. unfold run at 1.
  rewrite (proj2 (isCodegenCommand_spec exe script options) H).
  rewrite (other_arguments_unchanged_aux exe script ("codegen" :: options)).
  - done.
  - apply Exists_cons_hd. by intros [rest [=]].
Qed.

(** X7. Whatever the vector, [run] keeps the user's arguments, in their
    order, at the end of what it hands to commander, and the only thing it
    may add is the one subcommand name. *)
Theorem user_arguments_are_kept (argv : list string) :
  (Some <$> drop 2 argv) `suffix_of` run argv
  ∧ length (run argv) =
      if isCodegenCommand argv then 3 + length (drop 2 argv) else length argv.
Proof.
  unfold run. destruct (isCodegenCommand argv); split.
  - by exists [argv !! 0; argv !! 1; Some "codegen"].
  - rewrite length_app, length_fmap. done.
  - exists (Some <$> take 2 argv). by rewrite <- fmap_app, take_drop.
  - by rewrite length_fmap.
Qed.

End ArgvFacts.

Lemma other_arguments_are_passed_unchanged_witness :
  Cli.run ["node"; "crabygen"; "build"; "--verbose"] =
    [Some "node"; Some "crabygen"; Some "build"; Some "--verbose"].
Proof.
  apply (other_arguments_are_passed_unchanged "node" "crabygen" ["build"; "--verbose"]).
  apply Exists_cons_hd. by intros [rest [=]].
Defined.

Lemma default_subcommand_is_codegen_witness :
  Cli.run ["node"; "crabygen"; "--no-overwrite"] =
    Cli.run ["node"; "crabygen"; "codegen"; "--no-overwrite"].
Proof.
  apply (default_subcommand_is_codegen "node" "crabygen" ["--no-overwrite"]).
  repeat constructor. by eexists.
Defined.

(** ** The resolver and its cache *)

Section ResolverCacheFacts.
Import MetroResolver.
Variable path_join : string → string → string.
Variable path_dirname : string → string.
Variable oxc_sync : ResolverFactoryOptions → string → string → option string.

#[local] Abbreviation createResolverImpl := (createResolverImpl path_join).
#[local] Abbreviation resolveSync := (resolveSync oxc_sync).
#[local] Abbreviation singleton_loop := (singleton_loop oxc_sync).
#[local] Abbreviation call_resolver := (call_resolver path_dirname oxc_sync).
#[local] Abbreviation resolve := (resolve path_join path_dirname oxc_sync).
#[local] Abbreviation resolve_call := (resolve_call path_join path_dirname oxc_sync).
#[local] Abbreviation run_calls := (run_calls path_join path_dirname oxc_sync).

Lemma resolve_dom (options : CreateResolverOptions)
    (context : CustomResolutionContext) (request : string) (platform : option string)
    (resolvers : gmap (option string) Resolver) :
  dom (snd (resolve options context request platform resolvers)) =
    {[platform]} ∪ dom resolvers.
Proof.
  destruct (resolvers !! platform) as [r|] eqn:E.
  - rewrite (resolve_hit _ _ _ _ _ _ _ _ r E). simpl.
    apply (elem_of_dom_2 (D := gset (option string))) in E. set_solver.
  - rewrite resolve_miss by done. simpl. by rewrite dom_insert_L.
Qed.

(** X8. After any sequence of calls the cache holds the entries it had and
    exactly one more for each platform (a string or null) that a call was
    made for: its keys are the old keys and the platforms of the calls. *)
Theorem cache_has_one_entry_per_platform (calls : list ResolveCall)
    (resolvers : gmap (option string) Resolver) :
  dom (run_calls calls resolvers) =
    dom resolvers ∪ list_to_set (call_platform <$> calls).
Proof.
  revert resolvers. induction calls as [|c cs IH]; intros resolvers; simpl.
  - set_solver.
  - rewrite IH. unfold MetroResolver.resolve_call. rewrite resolve_dom. set_solver.
Qed.

Lemma singleton_loop_spec (r : Resolver) (singletons : list string) (request : string) :
  singleton_loop r singletons request =
    if bool_decide (request ∈ singletons)
    then Some (as_sourceFile (resolveSync r (closed_rootPath r) request))
    else None.
Proof.
  induction singletons as [|m rest IH]; cbn [MetroResolver.singleton_loop].
  - rewrite bool_decide_false; [done | apply not_elem_of_nil].
  - destruct (String.eqb request m) eqn:E.
    + apply String.eqb_eq in E as ->.
      rewrite bool_decide_true; [done | apply elem_of_cons; by left].
    + apply String.eqb_neq in E. rewrite IH.
      apply (f_equal (fun b : bool =>
        if b then Some (as_sourceFile (resolveSync r (closed_rootPath r) request))
        else None)).
      apply bool_decide_ext. rewrite elem_of_cons. naive_solver.
Qed.

Lemma call_resolver_spec (r : Resolver) (context : CustomResolutionContext)
    (request : string) :
  call_resolver r context request =
    match oxc_sync (closed_resolver r)
            (if bool_decide (request ∈ closed_singletonModules r)
             then closed_rootPath r
             else path_dirname (originModulePath context))
            request with
    | Some path => Resolved (sourceFile path)
    | None =>
        Failed ("Failed to resolve " +:+ request +:+ " from "
                +:+ originModulePath (closed_context r))
    end.
Proof.
  unfold MetroResolver.call_resolver. rewrite singleton_loop_spec.
  case_bool_decide; unfold MetroResolver.resolveSync;
    by destruct (oxc_sync _ _ _).
Qed.

(** X9. A request for one of the singleton modules of a resolver is looked
    up from the root path the resolver was created with: the answer is the
    same whichever module the request comes from. *)
Theorem singletons_resolve_from_the_root (r : Resolver)
    (context context' : CustomResolutionContext) (request : string) :
  request ∈ closed_singletonModules r →
  call_resolver r context request = call_resolver r context' request
  ∧ call_resolver r context request =
      as_sourceFile (resolveSync r (closed_rootPath r) request).
Proof.
  intros H. rewrite !call_resolver_spec, !bool_decide_true by done.
  split; [done |]. unfold MetroResolver.resolveSync. by destruct (oxc_sync _ _ _).
Qed.

(** X10. What a call of [resolve] gives. The resolver that serves it is the
    entry of the platform, or the new resolver when there is none; the
    directory searched is the resolver's root path for a singleton module
    and the directory of the origin module otherwise. The call returns a
    source-file resolution with the path oxc found, never an asset
    resolution; when oxc finds nothing it throws, and the message names the
    origin module of the call the resolver was created by, not that of the
    failing call. *)
Theorem resolve_outcome (options : CreateResolverOptions)
    (context : CustomResolutionContext) (request : string) (platform : option string)
    (resolvers : gmap (option string) Resolver) :
  let serving :=
    default (createResolverImpl options context platform (rootPath options))
            (resolvers !! platform) in
  fst (resolve options context request platform resolvers) =
    match oxc_sync (closed_resolver serving)
            (if bool_decide (request ∈ closed_singletonModules serving)
             then closed_rootPath serving
             else path_dirname (originModulePath context))
            request with
    | Some path => Resolved (sourceFile path)
    | None =>
        Failed ("Failed to resolve " +:+ request +:+ " from "
                +:+ originModulePath (closed_context serving))
    end.
Proof.
  cbv zeta. destruct (resolvers !! platform) as [r|] eqn:E; simpl.
  - rewrite (resolve_hit _ _ _ _ _ _ _ _ r E). simpl. apply call_resolver_spec.
  - rewrite resolve_miss by done. simpl. apply call_resolver_spec.
Qed.

(** X11. The empty string is a platform without extensions of its own: the
    resolver built for it is the resolver built for null. The cache still
    files it under its own key, next to the entry of null. *)
Theorem empty_platform_resolver (options : CreateResolverOptions)
    (context : CustomResolutionContext) (request : string)
    (resolvers : gmap (option string) Resolver) :
  resolvers !! Some "" = None →
  createResolverImpl options context (Some "") (rootPath options) =
    createResolverImpl options context None (rootPath options)
  ∧ snd (resolve options context request (Some "") resolvers) =
      <[Some "" := createResolverImpl options context None (rootPath options)]> resolvers
  ∧ snd (resolve options context request (Some "") resolvers) !! None =
      resolvers !! None.
Proof.
  intros H. split; [done |]. rewrite resolve_miss by done. simpl.
  split; [done |]. by rewrite lookup_insert_ne.
Qed.

End ResolverCacheFacts.

Lemma singletons_resolve_from_the_root_witness :
  let r :=
    MetroResolver.createResolverImpl SimulatedFiles.join
      (MetroResolver.mkOptions "/app" None)
      (MetroResolver.mkContext ["js"] "/app/src/main.js" None) None "/app" in
  MetroResolver.call_resolver SimulatedFiles.dirname
    (SimulatedFiles.sync ["/app/react.js"]) r
    (MetroResolver.mkContext ["js"] "/app/src/deep/a.js" None) "react"
  = MetroResolver.call_resolver SimulatedFiles.dirname
      (SimulatedFiles.sync ["/app/react.js"]) r
      (MetroResolver.mkContext ["ts"] "/elsewhere/b.ts" None) "react".
Proof.
  cbv zeta.
  refine (proj1 (singletons_resolve_from_the_root SimulatedFiles.join
                   SimulatedFiles.dirname
                   (SimulatedFiles.sync ["/app/react.js"]) _ _ _ "react" _)).
  apply elem_of_cons. by left.
Defined.

Lemma empty_platform_resolver_witness :
  let options := MetroResolver.mkOptions "/app" None in
  let context := MetroResolver.mkContext ["js"] "/app/src/main.js" None in
  let for_null :=
    MetroResolver.createResolverImpl SimulatedFiles.join options context None "/app" in
  snd (MetroResolver.resolve SimulatedFiles.join SimulatedFiles.dirname
         (SimulatedFiles.sync []) options context "helper" (Some "")
         (<[None := for_null]> ∅))
  = <[Some "" := for_null]> (<[None := for_null]> ∅).
Proof.
  cbv zeta.
  refine (proj1 (proj2 (empty_platform_resolver SimulatedFiles.join SimulatedFiles.dirname
                          (SimulatedFiles.sync [])
                          (MetroResolver.mkOptions "/app" None)
                          (MetroResolver.mkContext ["js"] "/app/src/main.js" None) "helper"
                          (<[None := _]> ∅) _))).
  by rewrite lookup_insert_ne.
Defined.

(** ** The workspace root and the Metro configuration *)

Section WorkspaceFacts.
Import MetroResolver MetroConfig.
Context {Json : Type}.
Variable path_dirname : string → string.
Variable path_join : string → string → string.
Variable fs_existsSync : string → bool.
Variable fs_readFileSync : string → Result string.
Variable JSON_parse : string → Result Json.
Variable workspaces_isArray : Json → Result bool.
Variable oxc_sync : ResolverFactoryOptions → string → string → option string.

#[local] Abbreviation inspect :=
  (inspect path_join fs_existsSync fs_readFileSync JSON_parse workspaces_isArray).
#[local] Abbreviation getWorkspaceRoot :=
  (getWorkspaceRoot path_dirname path_join fs_existsSync fs_readFileSync JSON_parse
     workspaces_isArray).
#[local] Abbreviation getConfig :=
  (getConfig path_dirname path_join fs_existsSync fs_readFileSync JSON_parse
     workspaces_isArray).
#[local] Abbreviation ancestor := (fun n rootDir => Nat.iter n path_dirname rootDir).

Lemma ancestor_succ (n : nat) (rootDir : string) :
  ancestor n (path_dirname rootDir) = ancestor (S n) rootDir.
Proof. symmetry. apply Nat.iter_succ_r. Qed.

Lemma getWorkspaceRoot_enough_fuel (depth : string → nat) :
  (∀ p, path_dirname p ≠ p → (depth (path_dirname p) < depth p)%nat) →
  ∀ fuel rootDir, (depth rootDir < fuel)%nat → getWorkspaceRoot fuel rootDir ≠ OutOfFuel.
Proof.
  intros Hdepth. induction fuel as [|fuel IH]; intros rootDir Hlt; [lia |].
  simpl. case_bool_decide as Hd; [| done].
  destruct (inspect rootDir) as [[|]|message]; try done.
  apply IH. specialize (Hdepth rootDir Hd). lia.
Qed.

Lemma getWorkspaceRoot_more_fuel (fuel fuel' : nat) (rootDir : string) :
  getWorkspaceRoot fuel rootDir ≠ OutOfFuel →
  (fuel ≤ fuel')%nat →
  getWorkspaceRoot fuel' rootDir = getWorkspaceRoot fuel rootDir.
Proof.
  revert fuel' rootDir. induction fuel as [|fuel IH]; intros fuel' rootDir Hne Hle;
    [done |].
  destruct fuel' as [|fuel']; [lia |]. simpl in *.
  case_bool_decide; [| done].
  destruct (inspect rootDir) as [[|]|message]; try done.
  apply IH; [done | lia].
Qed.

(** X12. [getWorkspaceRoot] comes to an end whenever [path.dirname] makes
    paths smaller until it reaches a path it leaves unchanged: with more
    fuel than the depth of [rootDir] the loop returns or throws, and more
    fuel does not change the outcome. *)
Theorem getWorkspaceRoot_terminates (depth : string → nat) (fuel fuel' : nat)
    (rootDir : string) :
  (∀ p, path_dirname p ≠ p → (depth (path_dirname p) < depth p)%nat) →
  (depth rootDir < fuel)%nat →
  (fuel ≤ fuel')%nat →
  getWorkspaceRoot fuel rootDir ≠ OutOfFuel
  ∧ getWorkspaceRoot fuel' rootDir = getWorkspaceRoot fuel rootDir.
Proof.
  intros Hdepth Hlt Hle.
  pose proof (getWorkspaceRoot_enough_fuel depth Hdepth fuel rootDir Hlt) as Hne.
  split; [done |]. by apply getWorkspaceRoot_more_fuel.
Qed.

(** X13. What [getWorkspaceRoot] returns. It walks from [rootDir] to its
    parents and stops at the first directory that is its own parent, which
    it does not look into. A directory it returns is the nearest one, on
    that walk, whose package.json exists, parses and has an array under
    [workspaces]; it returns null when the walk ends without one; it throws
    when, before that, a package.json cannot be read or parsed. *)
Theorem getWorkspaceRoot_finds_the_nearest (fuel : nat) (rootDir : string) :
  match getWorkspaceRoot fuel rootDir with
  | Finished (Some root) =>
      ∃ n, root = ancestor n rootDir
           ∧ path_dirname root ≠ root
           ∧ inspect root = Resolved true
           ∧ ∀ m, (m < n)%nat → inspect (ancestor m rootDir) = Resolved false
  | Finished None =>
      ∃ n, path_dirname (ancestor n rootDir) = ancestor n rootDir
           ∧ ∀ m, (m < n)%nat →
               inspect (ancestor m rootDir) = Resolved false
               ∧ path_dirname (ancestor m rootDir) ≠ ancestor m rootDir
  | Threw message =>
      ∃ n, inspect (ancestor n rootDir) = Failed message
           ∧ path_dirname (ancestor n rootDir) ≠ ancestor n rootDir
           ∧ ∀ m, (m < n)%nat → inspect (ancestor m rootDir) = Resolved false
  | OutOfFuel => True
  end.
Proof.
  revert rootDir. induction fuel as [|fuel IH]; intros rootDir; [done |].
  simpl. case_bool_decide as Hd.
  - destruct (inspect rootDir) as [[|]|message] eqn:Hi.
    + exists 0. repeat split; try done. intros m Hm. lia.
    + specialize (IH (path_dirname rootDir)).
      destruct (getWorkspaceRoot fuel (path_dirname rootDir)) as [[root|]|message|];
        [| | | done].
      * destruct IH as (n & -> & Hr & Hq & Hbefore).
        exists (S n). rewrite <- ancestor_succ.
        split; [done |]. split; [done |]. split; [done |].
        intros [|m] Hm; [exact Hi |]. rewrite <- ancestor_succ. apply Hbefore. lia.
      * destruct IH as (n & Hfix & Hbefore).
        exists (S n). rewrite <- ancestor_succ. split; [done |].
        intros [|m] Hm; [done |]. rewrite <- ancestor_succ. apply Hbefore. lia.
      * destruct IH as (n & Hfail & Hne & Hbefore).
        exists (S n). rewrite <- ancestor_succ.
        split; [done |]. split; [done |].
        intros [|m] Hm; [exact Hi |]. rewrite <- ancestor_succ. apply Hbefore. lia.
    + exists 0. repeat split; try done. intros m Hm. lia.
  - exists 0. split.
    + simpl. exact Hd.
    + intros m Hm. lia.
Qed.

(** X14. In the configuration [getConfig] returns, the project root is
    [rootDir], there is one watch folder (the workspace root, or null), and
    the resolver is created without a list of singleton modules: asked for
    [react] or [react-native] for the first time on a platform, it searches
    [rootDir], whichever module the request comes from. *)
Theorem getConfig_resolves_react_from_the_root (fuel : nat) (rootDir request : string)
    (config : Config) (context : CustomResolutionContext) (platform : option string) :
  getConfig fuel rootDir = Finished config →
  request = "react" ∨ request = "react-native" →
  projectRoot config = rootDir
  ∧ getWorkspaceRoot fuel rootDir = Finished (default None (head (watchFolders config)))
  ∧ length (watchFolders config) = 1
  ∧ fst (resolve path_join path_dirname oxc_sync (resolver_resolveRequest config)
           context request platform resolvers_at_load) =
      match oxc_sync
              (closed_resolver
                 (createResolverImpl path_join (mkOptions rootDir None) context platform
                    rootDir))
              rootDir request with
      | Some path => Resolved (sourceFile path)
      | None =>
          Failed ("Failed to resolve " +:+ request +:+ " from "
                  +:+ originModulePath context)
      end.
Proof.
  intros Hc Hreq. unfold MetroConfig.getConfig in Hc.
  destruct (getWorkspaceRoot fuel rootDir) as [ws| |] eqn:Hws; [| done | done].
  injection Hc as <-. simpl. repeat split; try done.
  rewrite (resolve_miss path_join path_dirname oxc_sync _ _ _ _ resolvers_at_load)
    by done.
  simpl. rewrite (call_resolver_spec path_join path_dirname oxc_sync). simpl.
  rewrite bool_decide_true; [done |].
  unfold DEFAULT_SINGLETON_MODULES. rewrite !elem_of_cons. tauto.
Qed.

End WorkspaceFacts.

Lemma simulated_dirname_decreases (p : string) :
  SimulatedFiles.dirname p ≠ p →
  (SimulatedDisk.depth (SimulatedFiles.dirname p) < SimulatedDisk.depth p)%nat.
Proof.
  assert (Hlen : ∀ s d, SimulatedFiles.before_last_slash s = Some d →
                        (String.length d < String.length s)%nat).
  { induction s as [|c s IH]; intros d; simpl; [done |].
    destruct (SimulatedFiles.before_last_slash s) as [d'|].
    - intros [= <-]. simpl. specialize (IH d' eq_refl). lia.
    - destruct (Ascii.eqb c "/"); [| done]. intros [= <-]. simpl. lia. }
  unfold SimulatedFiles.dirname, SimulatedDisk.depth.
  destruct (SimulatedFiles.before_last_slash p) as [d|] eqn:E.
  - pose proof (Hlen _ _ E) as Hl. intros Hne.
    rewrite (bool_decide_false (p = "/" ∨ p = ".")).
    + destruct d as [|c d]; [rewrite bool_decide_true by (by left); lia |].
      case_bool_decide; simpl in *; lia.
    + intros [-> | ->]; [| done].
      destruct d as [|c d]; [done | simpl in Hl; lia].
  - intros Hne. rewrite bool_decide_true by (by right).
    rewrite bool_decide_false; [lia |].
    intros [-> | ->]; [done | by apply Hne].
Qed.

Lemma getWorkspaceRoot_terminates_witness :
  let disk := [("/repo/package.json", "{workspaces:[packages/*]}");
               ("/repo/packages/app/package.json", "{name:app}")] in
  MetroConfig.getWorkspaceRoot SimulatedFiles.dirname SimulatedFiles.join
    (SimulatedDisk.existsSync disk) (SimulatedDisk.readFileSync disk)
    SimulatedDisk.parse SimulatedDisk.workspaces_isArray 30 "/repo/packages/app"
  = MetroConfig.Finished (Some "/repo").
Proof.
  cbv zeta.
  rewrite (proj2 (getWorkspaceRoot_terminates SimulatedFiles.dirname SimulatedFiles.join
                    (SimulatedDisk.existsSync _) (SimulatedDisk.readFileSync _)
                    SimulatedDisk.parse SimulatedDisk.workspaces_isArray
                    SimulatedDisk.depth 20 30 "/repo/packages/app"
                    simulated_dirname_decreases ltac:(vm_compute; lia) ltac:(lia))).
  vm_compute. reflexivity.
Defined.

Lemma getConfig_resolves_react_from_the_root_witness :
  let disk := [("/repo/package.json", "{workspaces:[packages/*]}")] in
  fst (MetroResolver.resolve SimulatedFiles.join SimulatedFiles.dirname
         (SimulatedFiles.sync ["/repo/packages/app/react.js"])
         (MetroResolver.mkOptions "/repo/packages/app" None)
         (MetroResolver.mkContext ["js"] "/repo/packages/app/src/deep/a.js" None)
         "react" None MetroResolver.resolvers_at_load)
  = MetroResolver.Resolved (MetroResolver.sourceFile "/repo/packages/app/react.js").
Proof.
  cbv zeta.
  pose proof (getConfig_resolves_react_from_the_root SimulatedFiles.dirname
                SimulatedFiles.join
                (SimulatedDisk.existsSync [("/repo/package.json", "{workspaces:[packages/*]}")])
                (SimulatedDisk.readFileSync [("/repo/package.json", "{workspaces:[packages/*]}")])
                SimulatedDisk.parse SimulatedDisk.workspaces_isArray
                (SimulatedFiles.sync ["/repo/packages/app/react.js"])
                30 "/repo/packages/app" "react"
                (MetroConfig.mkConfig "/repo/packages/app" [Some "/repo"]
                   (MetroResolver.mkOptions "/repo/packages/app" None))
                (MetroResolver.mkContext ["js"] "/repo/packages/app/src/deep/a.js" None)
                None ltac:(vm_compute; reflexivity) ltac:(by left)) as (_ & _ & _ & H).
  simpl MetroConfig.resolver_resolveRequest in H. rewrite H.
  vm_compute. reflexivity.
Defined.

(** ** The test runner and its result cards *)

Section TestRunnerFacts.
Import TestSuites.
Context {O : Type}.
Variable JSON_stringify : O → Evaluation (option string).

#[local] Abbreviation formatResult := (formatResult JSON_stringify).
#[local] Abbreviation ResultCard := (ResultCard JSON_stringify).
#[local] Abbreviation render_cards := (render_cards JSON_stringify).

Lemma push_all (tests : list Test) (done_so_far : list (TestResult (O := O))) :
  foldl (fun results test => results ++ [run_test test]) done_so_far tests =
    done_so_far ++ map run_test tests.
Proof.
  revert done_so_far. induction tests as [|t ts IH]; intros acc; simpl.
  - by rewrite app_nil_r.
  - rewrite IH. by rewrite <- app_assoc.
Qed.

Lemma truthy_run_test (test : Test (O := O)) :
  negb (truthy (result_error (run_test test))) = counted_as_passed test.
Proof.
  unfold run_test, counted_as_passed.
  destruct (action test) as [v|m|m]; simpl; [done | |];
    destruct m; by case_bool_decide.
Qed.

(** X15. When [runAllTests] is over the application is no longer running
    and holds one result per test, in the order of the suite and under the
    test's label. The number shown as passed counts the tests that returned
    and also those that threw an error whose text is empty. *)
Theorem runAllTests_results (TEST_SUITES : list Test) (state : AppState (O := O)) :
  let after := runAllTests TEST_SUITES state in
  isRunning after = false
  ∧ map result_label (testResults after) = map label TEST_SUITES
  ∧ map result_description (testResults after) = map description TEST_SUITES
  ∧ passed_count (testResults after) =
      length (List.filter counted_as_passed TEST_SUITES).
Proof.
  cbv zeta. unfold runAllTests. simpl. rewrite push_all. simpl.
  split; [done |]. unfold passed_count.
  induction TEST_SUITES as [|t ts (IH1 & IH2 & IH3)]; [done |]. simpl.
  rewrite IH1, IH2, truthy_run_test.
  split; [unfold run_test; by destruct (action t) |].
  split; [unfold run_test; by destruct (action t) |].
  destruct (counted_as_passed t); simpl; by rewrite IH3.
Qed.

Lemma ResultCard_renders (r : TestResult (O := O)) :
  match ResultCard r with
  | Exception message => formatResult (result_value r) = Exception message
  | Value card =>
      ∃ formatted,
        formatResult (result_value r) = Value formatted
        ∧ (cardStatus card = "Passed" ↔ truthy (result_error r) = false)
        ∧ (cardStatus card = "Error"
           ↔ ∃ error, error ≠ "" ∧ result_error r = Some error
                      ∧ cardBody card = ErrorText error)
        ∧ (cardStatus card = "Passed" ↔ cardBody card = CodeBlock formatted)
  end.
Proof.
  unfold TestSuites.ResultCard.
  destruct (formatResult (result_value r)) as [formatted|message]; [| done].
  exists formatted. split; [done |]. simpl.
  destruct (result_error r) as [[|c e]|]; simpl; repeat split; try done.
  - by intros (error & Hne & [= <-] & _).
  - intros _. by exists (String c e).
  - by intros (error & _ & [=] & _).
Qed.

(** X16. A card is rendered unless formatting the result throws, whether or
    not the test has an error text: [formatResult] comes first. A rendered
    card has the status [Error] exactly when its body is the error text,
    which is then not empty, and the status [Passed] exactly when its body
    is the formatted result. When all the cards of a list are rendered, the
    number shown as passed in the header is the number of cards with the
    status [Passed]. *)
Theorem header_counts_the_passed_cards (results : list (TestResult (O := O)))
    (cards : list Card) (r : TestResult (O := O)) :
  render_cards results = Value cards →
  passed_count results =
    length (List.filter (fun card => bool_decide (cardStatus card = "Passed")) cards)
  ∧ match ResultCard r with
    | Exception message => formatResult (result_value r) = Exception message
    | Value card =>
        ∃ formatted,
          formatResult (result_value r) = Value formatted
          ∧ (cardStatus card = "Error"
             ↔ ∃ error, error ≠ "" ∧ result_error r = Some error
                        ∧ cardBody card = ErrorText error)
          ∧ (cardStatus card = "Passed" ↔ cardBody card = CodeBlock formatted)
    end.
Proof.
  intros Hrender. split.
  - unfold passed_count. revert cards Hrender.
    induction results as [|x xs IH]; intros cards Hrender; simpl in *.
    + by injection Hrender as <-.
    + pose proof (ResultCard_renders x) as Hx.
      destruct (ResultCard x) as [card|message]; [| done].
      destruct (render_cards xs) as [rest|message]; [| done].
      injection Hrender as <-. simpl.
      destruct Hx as (formatted & _ & Hpassed & _).
      specialize (IH rest eq_refl).
      destruct (truthy (result_error x)); simpl.
      * rewrite bool_decide_false; [done |].
        intros H. apply Hpassed in H. done.
      * rewrite bool_decide_true by (by apply Hpassed). simpl. by rewrite IH.
  - pose proof (ResultCard_renders r) as Hr.
    destruct (ResultCard r) as [card|message]; [| done].
    destruct Hr as (formatted & Hf & _ & He & Hp). by exists formatted.
Qed.

End TestRunnerFacts.

Lemma header_counts_the_passed_cards_witness :
  let stringify (o : string) : TestSuites.Evaluation (option string) :=
    TestSuites.Value (Some o) in
  TestSuites.passed_count
    [ TestSuites.mkTestResult "numbers" None
        (TestSuites.JArray [Some (TestSuites.JOther "1"); None; Some TestSuites.JNull]) None;
      TestSuites.mkTestResult "throws" (Some "always fails") TestSuites.JNull
        (Some "boom") ] = 1.
Proof.
  cbv zeta.
  refine (proj1 (header_counts_the_passed_cards
                   (fun o : string => TestSuites.Value (Some o)) _
                   [ TestSuites.mkCard "numbers" "Passed" "#10B981" None
                       (TestSuites.CodeBlock (Some "[1, , null]"));
                     TestSuites.mkCard "throws" "Error" "#EF4444" (Some "always fails")
                       (TestSuites.ErrorText "boom") ]
                   (TestSuites.mkTestResult "throws" None TestSuites.JCircularArray
                      (Some "boom")) _)).
  reflexivity.
Defined.

(** ** The MDX component table *)

Section MdxFacts.
Import DocsMdx.
Context {X : Type}.
Variable Mermaid : X.
Variable TossFace : X.

(** X17. In the table [getMDXComponents] returns, [pre], [Callout],
    [TossFace] and [Mermaid] are always the site's own components, whatever
    the caller or the libraries provide under these names, and [Callout]
    wraps the callout of the default components. Every other name is taken
    from the caller's components first, then from the tabs components, then
    from the default components. *)
Theorem getMDXComponents_precedence
    (defaultMdxComponents TabsComponents : gmap string (Component (X := X)))
    (components : option (gmap string (Component (X := X)))) (name : string) :
  getMDXComponents Mermaid TossFace defaultMdxComponents TabsComponents components !! name =
    if bool_decide (name = "pre") then Some PreOverride
    else if bool_decide (name = "Callout")
    then Some (CalloutOverride (defaultMdxComponents !! "Callout"))
    else if bool_decide (name = "TossFace") then Some (Imported TossFace)
    else if bool_decide (name = "Mermaid") then Some (Imported Mermaid)
    else
      match default ∅ components !! name with
      | Some c => Some c
      | None =>
          match TabsComponents !! name with
          | Some c => Some c
          | None => defaultMdxComponents !! name
          end
      end.
Proof.
  unfold getMDXComponents, spread.
  rewrite !lookup_insert.
  repeat (case_decide; case_bool_decide; simplify_eq; try done).
  rewrite !lookup_union, lookup_empty.
  destruct (default ∅ components !! name), (TabsComponents !! name),
    (defaultMdxComponents !! name); done.
Qed.

End MdxFacts.

(** ** The extensions a resolver tries *)

Section ExtensionFacts.
Import MetroResolver.
Variable path_join : string → string → string.

(** X18. The order in which a resolver tries extensions: first the
    extensions of the platform ([.ios.js]), when the platform is a non-empty
    string; then the native ones ([.native.js]), when the context prefers
    the native platform; then the plain ones ([.js]); each group in the
    order of [sourceExts]. The other options of the resolver do not depend
    on the context or the platform, and its module directories are
    [node_modules] and [src] under the root path. *)
Theorem extensions_by_priority (options : CreateResolverOptions)
    (context : CustomResolutionContext) (platform : option string) (rootPath : string) :
  let r := closed_resolver (createResolverImpl path_join options context platform rootPath) in
  extensions r =
    (if truthy_string platform
     then (fun e => "." +:+ default "" platform +:+ "." +:+ e) <$> sourceExts context
     else [])
    ++ (if truthy_bool (preferNativePlatform context)
        then (fun e => ".native." +:+ e) <$> sourceExts context
        else [])
    ++ ((fun e => "." +:+ e) <$> sourceExts context)
  ∧ length (extensions r) =
      ((if truthy_string platform then 1 else 0)
       + (if truthy_bool (preferNativePlatform context) then 1 else 0) + 1)
      * length (sourceExts context)
  ∧ modules r = ["node_modules"; path_join rootPath "src"]
  ∧ mainFiles r = ["index"].
Proof.
  cbv zeta. unfold MetroResolver.createResolverImpl. simpl.
  destruct (truthy_string platform), (truthy_bool (preferNativePlatform context));
    simpl; rewrite ?length_app, ?length_map, ?length_fmap, ?map_map;
    repeat split; try done; lia.
Qed.

End ExtensionFacts.
